(** * github-notion-sync: a shallow embedding of [sync-github-commits.ts]

    The script polls a repository's commit history and mirrors each new
    commit into a Notion database, remembering the commits it has already
    written in a small JSON cache file.

    Conventions of the embedding.
    - A JavaScript string is a [string]; each character stands for one
      UTF-16 code unit, and code units above 255 are outside the model.
    - A JavaScript number that the script only uses as an integer (line
      counts, counters, the window length) is a [Z]; the result of
      [parseInt], which may be [NaN] or too large to be held exactly, is
      a [JsNumber].
    - An optional or possibly [undefined] value is an [option].
    - Everything outside the process (file system, clock, the two remote
      APIs, timers) is reached through the operations of [Runtime]; every
      call is recorded, with its arguments and its result, in a trace.
    - A computation ends normally, by a thrown exception, or by
      [process.exit]; [try]/[catch] is [tryCatch].
    - [console.error] lines are recorded as [EvConsoleError]; the purely
      informational [console.log] lines are not modelled. *)

From Stdlib Require Import String Ascii List ZArith Bool Lia DecimalString
  DecimalNat.
Import ListNotations.
Local Open Scope string_scope.
Local Open Scope Z_scope.

(** ** JavaScript string and value primitives *)

Module Js.

(** [String.prototype.toLowerCase] on one code unit below 256: the ASCII
    capitals and the Latin-1 capitals (U+00C0 - U+00DE, except the
    multiplication sign U+00D7) move up by 32. *)
Definition lowerChar (c : ascii) : ascii :=
  let n := nat_of_ascii c in
  if ((65 <=? n) && (n <=? 90))%nat then ascii_of_nat (n + 32)
  else if ((192 <=? n) && (n <=? 222) && negb (n =? 215))%nat
       then ascii_of_nat (n + 32)
       else c.

Fixpoint toLowerCase (s : string) : string :=
  match s with
  | EmptyString => EmptyString
  | String c s' => String (lowerChar c) (toLowerCase s')
  end.

(** [s.includes(sub)]: [sub] occurs in [s] at some position. *)
Fixpoint includes (s sub : string) : bool :=
  if String.prefix sub s then true
  else match s with
       | EmptyString => false
       | String _ s' => includes s' sub
       end.

(** [files.join(' ')]. *)
Definition join (sep : string) (xs : list string) : string :=
  String.concat sep xs.

(** [s.substring(0, n)] for a non-negative [n]. *)
Definition substring0 (n : nat) (s : string) : string :=
  String.substring 0 n s.

(** [arr.includes(x)] on an array of strings (strict equality). *)
Definition arrayIncludes (arr : list string) (x : string) : bool :=
  existsb (String.eqb x) arr.

(** [arr.slice(-n)] for a positive [n]: the last [n] elements, or the
    whole array when it is shorter. *)
Definition sliceLast {A : Type} (n : nat) (arr : list A) : list A :=
  skipn (length arr - n) arr.

(** Truthiness of a possibly undefined string: [undefined] and the empty
    string are falsy. *)
Definition truthyStr (o : option string) : bool :=
  match o with
  | Some s => negb (String.eqb s "")
  | None => false
  end.

(** [o || d] on a possibly undefined string. *)
Definition orStr (o : option string) (d : string) : string :=
  match o with
  | Some s => if String.eqb s "" then d else s
  | None => d
  end.

(** [o || 0] on a possibly undefined integer. *)
Definition orZero (o : option Z) : Z :=
  match o with
  | Some n => n
  | None => 0
  end.

(** A default parameter value [x = d]: used when the argument is
    [undefined]. *)
Definition defaultArg {A : Type} (d : A) (o : option A) : A :=
  match o with
  | Some a => a
  | None => d
  end.

(** A time value, in milliseconds, is a valid date within 100 000 000
    days of the epoch; outside that range the date is invalid. *)
Definition validTime (t : Z) : bool := Z.abs t <=? 8640000000000000.

End Js.

(** ** Classifiers *)

(** [detectFeatureArea(message, files = [])]. *)
Definition detectFeatureArea (message : string) (files : option (list string))
  : string :=
  let lowerMessage := Js.toLowerCase message in
  let fileStr := Js.toLowerCase (Js.join " " (Js.defaultArg [] files)) in
  if Js.includes lowerMessage "chat" || Js.includes fileStr "chat-interface"
     || Js.includes fileStr "chat.tsx"
  then "Chat Interface"
  else if Js.includes lowerMessage "bigquery" || Js.includes lowerMessage "analytics"
          || Js.includes fileStr "bigquery"
  then "BigQuery Integration"
  else if Js.includes lowerMessage "claude" || Js.includes lowerMessage "ai"
          || Js.includes lowerMessage "anthropic"
  then "AI/Claude API"
  else if Js.includes lowerMessage "supabase" || Js.includes lowerMessage "database"
          || Js.includes lowerMessage "auth"
  then "Database/Supabase"
  else if Js.includes lowerMessage "ui" || Js.includes lowerMessage "style"
          || Js.includes lowerMessage "css" || Js.includes fileStr ".css"
  then "UI/UX"
  else if Js.includes lowerMessage "test" || Js.includes fileStr "test"
          || Js.includes fileStr ".spec."
  then "Testing"
  else if Js.includes lowerMessage "deploy" || Js.includes lowerMessage "build"
          || Js.includes fileStr "vercel" || Js.includes fileStr "dockerfile"
  then "Deployment"
  else if Js.includes lowerMessage "fix" || Js.includes lowerMessage "bug"
  then "Bug Fix"
  else "Chat Interface".

(** [detectImpactLevel(message, additions = 0, deletions = 0)]. *)
Definition detectImpactLevel (message : string) (additions deletions : option Z)
  : string :=
  let lowerMessage := Js.toLowerCase message in
  let totalChanges := Js.defaultArg 0 additions + Js.defaultArg 0 deletions in
  if Js.includes lowerMessage "feat:" || Js.includes lowerMessage "feature:"
     || (200 <? totalChanges)
  then "Major Feature"
  else if Js.includes lowerMessage "fix:" || Js.includes lowerMessage "bug"
  then "Bug Fix"
  else if Js.includes lowerMessage "refactor:" || Js.includes lowerMessage "cleanup"
  then "Refactor"
  else if Js.includes lowerMessage "docs:" || Js.includes lowerMessage "readme"
  then "Documentation"
  else if 50 <? totalChanges
  then "Minor Feature"
  else "Minor Feature".

(** *** The rule tables the documentation describes

    The documented reading of both classifiers: an ordered list of
    (predicate, label) rules, evaluated in sequence, the first rule whose
    predicate holds giving the label, and a default label otherwise. *)

Section FirstMatch.
Context {I : Type}.

Definition Rule : Type := (I -> bool) * string.

Fixpoint firstMatch (rules : list Rule) (default : string) (i : I) : string :=
  match rules with
  | [] => default
  | (p, label) :: rest => if p i then label else firstMatch rest default i
  end.
End FirstMatch.

(** The input of a feature-area rule: the lower-cased message and the
    lower-cased, space-joined file paths. *)
Definition msgHas (kw : string) : string * string -> bool :=
  fun i => Js.includes (fst i) kw.
Definition pathHas (kw : string) : string * string -> bool :=
  fun i => Js.includes (snd i) kw.
Definition anyOf {I : Type} (ps : list (I -> bool)) : I -> bool :=
  fun i => existsb (fun p => p i) ps.

Definition featureRules : list (@Rule (string * string)) :=
  [ (anyOf [msgHas "chat"; pathHas "chat-interface"; pathHas "chat.tsx"],
     "Chat Interface");
    (anyOf [msgHas "bigquery"; msgHas "analytics"; pathHas "bigquery"],
     "BigQuery Integration");
    (anyOf [msgHas "claude"; msgHas "ai"; msgHas "anthropic"],
     "AI/Claude API");
    (anyOf [msgHas "supabase"; msgHas "database"; msgHas "auth"],
     "Database/Supabase");
    (anyOf [msgHas "ui"; msgHas "style"; msgHas "css"; pathHas ".css"],
     "UI/UX");
    (anyOf [msgHas "test"; pathHas "test"; pathHas ".spec."],
     "Testing");
    (anyOf [msgHas "deploy"; msgHas "build"; pathHas "vercel"; pathHas "dockerfile"],
     "Deployment");
    (anyOf [msgHas "fix"; msgHas "bug"],
     "Bug Fix") ].

Definition featureInput (message : string) (files : list string)
  : string * string :=
  (Js.toLowerCase message, Js.toLowerCase (Js.join " " files)).

(** The input of an impact-level rule: the lower-cased message and
    [totalChanges]. *)
Definition textHas (kw : string) : string * Z -> bool :=
  fun i => Js.includes (fst i) kw.
Definition changesAbove (n : Z) : string * Z -> bool :=
  fun i => n <? snd i.

Definition impactRules : list (@Rule (string * Z)) :=
  [ (anyOf [textHas "feat:"; textHas "feature:"; changesAbove 200], "Major Feature");
    (anyOf [textHas "fix:"; textHas "bug"], "Bug Fix");
    (anyOf [textHas "refactor:"; textHas "cleanup"], "Refactor");
    (anyOf [textHas "docs:"; textHas "readme"], "Documentation");
    (anyOf [changesAbove 50], "Minor Feature") ].

Definition impactInput (message : string) (additions deletions : Z)
  : string * Z :=
  (Js.toLowerCase message, additions + deletions).

(** ** The cache *)

Definition CACHE_FILE : string := ".github-sync-cache.json".
Definition MAX_CACHE_SIZE : nat := 1000.

Record SyncCache : Type := mkSyncCache {
  processedSHAs : list string;
  lastSync : string;
  totalProcessed : Z
}.

(** [cleanupCache(cache)]. *)
Definition cleanupCache (cache : SyncCache) : SyncCache :=
  if (MAX_CACHE_SIZE <? length (processedSHAs cache))%nat
  then {| processedSHAs := Js.sliceLast MAX_CACHE_SIZE (processedSHAs cache);
          lastSync := lastSync cache;
          totalProcessed := totalProcessed cache |}
  else cache.

(** [commitExistsInCache(sha, cache)]. *)
Definition commitExistsInCache (sha : string) (cache : SyncCache) : bool :=
  Js.arrayIncludes (processedSHAs cache) sha.

(** What [JSON.parse] gives on a cache file, for documents of the declared
    [SyncCache] shape: [null] (reading a property of it raises a
    TypeError), or a value whose three properties are each present or
    [undefined].  A file edited by hand so that a property has another
    type (a string where the list of identifiers is expected) is outside
    the model. *)
Inductive ParsedCache : Type :=
| ParsedNull
| ParsedFields (shas : option (list string)) (last : option string)
               (total : option Z).

(** ** Remote data *)

(** One entry of the commit list the host returns. *)
Record CommitSummary : Type := mkCommitSummary {
  cs_sha : string;
  cs_message : string;
  cs_authorDate : option string
}.

Record GhStats : Type := mkGhStats {
  gs_additions : option Z;
  gs_deletions : option Z;
  gs_total : option Z
}.

(** The host's answer to a single-commit request. *)
Record GhCommit : Type := mkGhCommit {
  gh_message : string;
  gh_authorName : option string;
  gh_authorDate : option string;
  gh_html_url : string;
  gh_stats : option GhStats;
  gh_files : option (list string)
}.

Record Stats : Type := mkStats {
  additions : Z;
  deletions : Z;
  total : Z
}.

(** [interface CommitData]. *)
Record CommitData : Type := mkCommitData {
  sha : string;
  message : string;
  author : string;
  date : string;
  url : string;
  stats : option Stats;
  files : option Z
}.

(** The properties of the page [createNotionCommit] submits. *)
Record NotionRow : Type := mkNotionRow {
  row_commitMessage : string;
  row_githubSHA : string;
  row_githubURL : string;
  row_author : string;
  row_commitDate : string;
  row_repository : string;
  row_featureArea : string;
  row_impactLevel : string;
  row_linesAdded : Z;
  row_linesDeleted : Z;
  row_filesChanged : Z;
  row_status : string;
  row_branch : string
}.

(** ** [parseInt] *)

(** What [parseInt] and the window check work with: [NaN], an integer of
    magnitude at most 2^53, which a JavaScript number holds exactly, or a
    number beyond that, whose exact value depends on rounding (it may be
    infinite) and of which only the sign is kept. *)
Inductive JsNumber : Type :=
| JsNaN
| JsInt (z : Z)
| JsHuge (negative : bool).

Module ParseInt.

(** White space among the code units below 256. *)
Definition isWhite (c : ascii) : bool :=
  let n := nat_of_ascii c in
  (((9 <=? n) && (n <=? 13)) || (n =? 32) || (n =? 160))%nat.

Fixpoint trimStart (s : string) : string :=
  match s with
  | String c s' => if isWhite c then trimStart s' else s
  | EmptyString => s
  end.

Definition digitValue (radix : Z) (c : ascii) : option Z :=
  let n := Z.of_nat (nat_of_ascii c) in
  let v := if (48 <=? n) && (n <=? 57) then Some (n - 48)
           else if (97 <=? n) && (n <=? 122) then Some (n - 87)
           else if (65 <=? n) && (n <=? 90) then Some (n - 55)
           else None in
  match v with
  | Some d => if d <? radix then Some d else None
  | None => None
  end.

(** The value of the longest prefix of digits; [None] when it is empty. *)
Fixpoint digits (radix : Z) (s : string) (acc : option Z) : option Z :=
  match s with
  | String c s' =>
      match digitValue radix c with
      | Some d => digits radix s' (Some (radix * Js.orZero acc + d))
      | None => acc
      end
  | EmptyString => acc
  end.

Definition stripSign (s : string) : Z * string :=
  match s with
  | String "-" r => (-1, r)
  | String "+" r => (1, r)
  | _ => (1, s)
  end.

Definition stripHex (s : string) : Z * string :=
  match s with
  | String "0" (String "x" r) => (16, r)
  | String "0" (String "X" r) => (16, r)
  | _ => (10, s)
  end.

(** The integer the leading digits of [s] denote, after white space, a
    sign and a hexadecimal prefix; [None] when there is no digit. *)
Definition mathInt (s : string) : option Z :=
  let (sign, s1) := stripSign (trimStart s) in
  let (radix, s2) := stripHex s1 in
  option_map (Z.mul sign) (digits radix s2 None).

(** [parseInt(s)] with no radix argument. *)
Definition parseInt (s : string) : JsNumber :=
  match mathInt s with
  | None => JsNaN
  | Some x => if Z.abs x <=? 9007199254740992 then JsInt x else JsHuge (x <? 0)
  end.

End ParseInt.

(** ** Events *)

(** Which function issued a single-commit request. *)
Inductive Caller : Type := ByGetCommitDetails | ByGetCommitFiles.

(** The [console.error] lines of the script. *)
Inductive Diagnostic : Type :=
| FailedToSaveCache
| ErrorGettingCommitDetails (sha : string)
| ErrorCreatingNotionEntry (sha : string)
| ErrorGettingFiles (sha : string)
| ErrorDuringSync
| InvalidDaysParameter
| MissingEnvironmentVariables
| FatalErrorInMain.

Inductive Event : Type :=
| EvExistsSync (path : string) (res : bool)
| EvReadFileSync (path : string) (res : option string)
| EvWriteFileSync (path : string) (data : string) (ok : bool)
| EvUnlinkSync (path : string) (ok : bool)
| EvDateNow (t : Z)
| EvListCommits (since : option string) (per_page : Z)
                (res : option (list CommitSummary))
| EvGetCommit (by_ : Caller) (ref : string) (res : option GhCommit)
| EvPagesCreate (row : NotionRow) (ok : bool)
| EvSleep (ms : Z)
| EvConsoleError (d : Diagnostic).

(** ** Observations on traces *)

(** The values a selector picks out of a trace, in order. *)
Definition pick {A : Type} (f : Event -> option A) (tr : list Event) : list A :=
  flat_map (fun e => match f e with Some a => [a] | None => [] end) tr.
Arguments pick : simpl never.

(** The references [getCommitDetails] asked the host for. *)
Definition detailFetches : list Event -> list string :=
  pick (fun e => match e with
                 | EvGetCommit ByGetCommitDetails ref _ => Some ref
                 | _ => None
                 end).

(** The references [getCommitFiles] asked the host for. *)
Definition fileFetches : list Event -> list string :=
  pick (fun e => match e with
                 | EvGetCommit ByGetCommitFiles ref _ => Some ref
                 | _ => None
                 end).

(** The rows submitted to the database. *)
Definition rowWrites : list Event -> list NotionRow :=
  pick (fun e => match e with EvPagesCreate row _ => Some row | _ => None end).

(** The delays, in milliseconds. *)
Definition sleeps : list Event -> list Z :=
  pick (fun e => match e with EvSleep ms => Some ms | _ => None end).

(** The commit-list requests, each with its answer. *)
Definition listRequests
  : list Event -> list (option string * Z * option (list CommitSummary)) :=
  pick (fun e => match e with
                 | EvListCommits since per_page res => Some (since, per_page, res)
                 | _ => None
                 end).

(** The [console.error] lines. *)
Definition errors : list Event -> list Diagnostic :=
  pick (fun e => match e with EvConsoleError d => Some d | _ => None end).

(** The detail fetches reported as failed. *)
Definition failedDetails : list Event -> list string :=
  pick (fun e => match e with
                 | EvConsoleError (ErrorGettingCommitDetails ref) => Some ref
                 | _ => None
                 end).

(** The row writes reported as failed. *)
Definition failedWrites : list Event -> list string :=
  pick (fun e => match e with
                 | EvConsoleError (ErrorCreatingNotionEntry ref) => Some ref
                 | _ => None
                 end).

(** What was written to files. *)
Definition fileWrites : list Event -> list (string * string) :=
  pick (fun e => match e with
                 | EvWriteFileSync path data _ => Some (path, data)
                 | _ => None
                 end).

(** The clock readings. *)
Definition clockReadings : list Event -> list Z :=
  pick (fun e => match e with EvDateNow t => Some t | _ => None end).

(** A trace with no remote request, no delay, no file write and no error
    line. *)
Definition quiet (tr : list Event) : Prop :=
  listRequests tr = [] /\ detailFetches tr = [] /\ fileFetches tr = []
  /\ rowWrites tr = [] /\ sleeps tr = [] /\ errors tr = []
  /\ fileWrites tr = [].

(** ** The runtime

    The operations the script reaches outside itself.  An operation that
    can throw returns an [option] or a [bool] ([None], [false]: it threw).  *)
Class Runtime : Type := {
  World : Type;
  fs_existsSync : string -> World -> World * bool;
  fs_readFileSync : string -> World -> World * option string;
  fs_writeFileSync : string -> string -> World -> World * bool;
  fs_unlinkSync : string -> World -> World * bool;
  JSON_parse : string -> option ParsedCache;
  JSON_stringify : SyncCache -> string;
  (** [new Date()]: the clock, in milliseconds; a reading is a valid
      time, and so is the time thirty days before it. *)
  Date_now : World -> World * Z;
  (** The text of a valid time. *)
  Date_toISOString : Z -> string;
  (** [d.setDate(d.getDate() - days)]: the time that many days earlier,
      not yet clipped to the range of valid times. *)
  Date_minusDays : Z -> Z -> Z;
  (** [new Date(s).toISOString().split('T')[0]]; throws on an invalid date. *)
  Date_isoDay : string -> option string;
  octokit_listCommits :
    option string -> Z -> World -> World * option (list CommitSummary);
  octokit_getCommit : string -> World -> World * option GhCommit;
  notion_pagesCreate : NotionRow -> World -> World * bool;
  setTimeout_wait : Z -> World -> World;
  NOTION_TOKEN : option string;
  GITHUB_TOKEN : option string
}.

(** ** Computations *)

(** How a computation ends: with a value, by an exception, or by
    [process.exit(code)]. *)
Inductive Completion (A : Type) : Type :=
| Normal (a : A)
| Throw
| Exit (code : Z).
Arguments Normal {A} a.
Arguments Throw {A}.
Arguments Exit {A} code.

Section Script.
Context {R : Runtime}.

(** The outcome of running a computation: the world it leaves, the events
    it caused, in order, and how it ended. *)
Record Run (A : Type) : Type := mkRun {
  after : World;
  trace : list Event;
  completion : Completion A
}.
Arguments mkRun {A} after trace completion.
Arguments after {A} r.
Arguments trace {A} r.
Arguments completion {A} r.

Definition IO (A : Type) : Type := World -> Run A.

Definition ret {A : Type} (a : A) : IO A :=
  fun w => mkRun w [] (Normal a).

Definition bind {A B : Type} (m : IO A) (k : A -> IO B) : IO B :=
  fun w =>
    match m w with
    | mkRun w1 t1 (Normal a) =>
        match k a w1 with
        | mkRun w2 t2 c => mkRun w2 (t1 ++ t2) c
        end
    | mkRun w1 t1 Throw => mkRun w1 t1 Throw
    | mkRun w1 t1 (Exit code) => mkRun w1 t1 (Exit code)
    end.

(** [try { body } catch (error) { handler }]: an exception of [body] is
    handled; [process.exit] is not an exception. *)
Definition tryCatch {A : Type} (body handler : IO A) : IO A :=
  fun w =>
    match body w with
    | mkRun w1 t1 Throw =>
        match handler w1 with
        | mkRun w2 t2 c => mkRun w2 (t1 ++ t2) c
        end
    | r => r
    end.

Definition throw {A : Type} : IO A :=
  fun w => mkRun w [] Throw.

(** [process.exit(code)]. *)
Definition processExit {A : Type} (code : Z) : IO A :=
  fun w => mkRun w [] (Exit code).

Definition emit (e : Event) : IO unit :=
  fun w => mkRun w [e] (Normal tt).

(** A value that is there or whose absence is an exception. *)
Definition orThrow {A : Type} (o : option A) : IO A :=
  match o with
  | Some a => ret a
  | None => throw
  end.

End Script.

Arguments mkRun {R A} after trace completion.
Arguments after {R A} r.
Arguments trace {R A} r.
Arguments completion {R A} r.

Declare Scope io_scope.
Delimit Scope io_scope with io.
Notation "x <- m ;; k" := (bind m (fun x => k))
  (at level 61, m at next level, right associativity) : io_scope.
Notation "m ;;; k" := (bind m (fun _ => k))
  (at level 61, right associativity) : io_scope.

(** ** The script *)

Section Program.
Context {R : Runtime}.
Local Open Scope io_scope.

(** *** Calls into the runtime, each recorded in the trace *)

Definition existsSync (path : string) : IO bool :=
  fun w =>
    let r := fs_existsSync path w in
    mkRun (fst r) [EvExistsSync path (snd r)] (Normal (snd r)).

Definition readFileSync (path : string) : IO string :=
  fun w =>
    let r := fs_readFileSync path w in
    mkRun (fst r) [EvReadFileSync path (snd r)]
          (match snd r with Some s => Normal s | None => Throw end).

Definition writeFileSync (path data : string) : IO unit :=
  fun w =>
    let r := fs_writeFileSync path data w in
    mkRun (fst r) [EvWriteFileSync path data (snd r)]
          (if snd r then Normal tt else Throw).

Definition unlinkSync (path : string) : IO unit :=
  fun w =>
    let r := fs_unlinkSync path w in
    mkRun (fst r) [EvUnlinkSync path (snd r)]
          (if snd r then Normal tt else Throw).

(** [new Date()]. *)
Definition newDate : IO Z :=
  fun w =>
    let r := Date_now w in
    mkRun (fst r) [EvDateNow (snd r)] (Normal (snd r)).

(** [new Date().toISOString()]. *)
Definition nowISOString : IO string :=
  t <- newDate ;; ret (Date_toISOString t).

(** [d.toISOString()] on a date that was moved by [setDate]: a
    [RangeError] when the date has left the range of valid times. *)
Definition toISOString (t : Z) : IO string :=
  if Js.validTime t then ret (Date_toISOString t) else throw.

(** [octokit.rest.repos.listCommits({owner, repo, since, per_page})]. *)
Definition listCommits (since : option string) (per_page : Z)
  : IO (list CommitSummary) :=
  fun w =>
    let r := octokit_listCommits since per_page w in
    mkRun (fst r) [EvListCommits since per_page (snd r)]
          (match snd r with Some l => Normal l | None => Throw end).

(** [octokit.rest.repos.getCommit({owner, repo, ref})]. *)
Definition getCommit (by_ : Caller) (ref : string) : IO GhCommit :=
  fun w =>
    let r := octokit_getCommit ref w in
    mkRun (fst r) [EvGetCommit by_ ref (snd r)]
          (match snd r with Some c => Normal c | None => Throw end).

(** [notion.pages.create({parent, properties})]. *)
Definition pagesCreate (row : NotionRow) : IO unit :=
  fun w =>
    let r := notion_pagesCreate row w in
    mkRun (fst r) [EvPagesCreate row (snd r)]
          (if snd r then Normal tt else Throw).

(** [await new Promise(resolve => setTimeout(resolve, ms))]. *)
Definition sleep (ms : Z) : IO unit :=
  fun w => mkRun (setTimeout_wait ms w) [EvSleep ms] (Normal tt).

Definition consoleError (d : Diagnostic) : IO unit :=
  emit (EvConsoleError d).

(** [o || d] where [d] is only evaluated when [o] is falsy. *)
Definition orElse (o : option string) (d : IO string) : IO string :=
  match o with
  | Some s => if String.eqb s "" then d else ret s
  | None => d
  end.

(** *** Cache management *)

Definition emptyCache (now : string) : SyncCache :=
  {| processedSHAs := []; lastSync := now; totalProcessed := 0 |}.

(** The [try] block of [loadCache]: [Some] cache when it returns one,
    [None] when the file does not exist and control falls through. *)
Definition loadCacheTry : IO (option SyncCache) :=
  found <- existsSync CACHE_FILE ;;
  if found then
    text <- readFileSync CACHE_FILE ;;
    data <- orThrow (JSON_parse text) ;;
    match data with
    | ParsedNull => throw
    | ParsedFields shas last count =>
        lastSync' <- orElse last nowISOString ;;
        ret (Some {| processedSHAs := Js.defaultArg [] shas;
                     lastSync := lastSync';
                     totalProcessed := Js.orZero count |})
    end
  else ret None.

(** [loadCache()]. *)
Definition loadCache : IO SyncCache :=
  loaded <- tryCatch loadCacheTry (ret None) ;;
  match loaded with
  | Some cache => ret cache
  | None => now <- nowISOString ;; ret (emptyCache now)
  end.

(** [saveCache(cache)]. *)
Definition saveCache (cache : SyncCache) : IO unit :=
  tryCatch
    (writeFileSync CACHE_FILE (JSON_stringify cache))
    (consoleError FailedToSaveCache).

(** *** Remote detail fetcher *)

Definition statsOf (c : GhCommit) : Stats :=
  {| additions := Js.orZero (match gh_stats c with
                             | Some s => gs_additions s | None => None end);
     deletions := Js.orZero (match gh_stats c with
                             | Some s => gs_deletions s | None => None end);
     total := Js.orZero (match gh_stats c with
                         | Some s => gs_total s | None => None end) |}.

(** [getCommitDetails(sha)]; [None] is [null]. *)
Definition getCommitDetails (sha0 : string) : IO (option CommitData) :=
  tryCatch
    (commit <- getCommit ByGetCommitDetails sha0 ;;
     date' <- orElse (gh_authorDate commit) nowISOString ;;
     ret (Some {| sha := Js.substring0 7 sha0;
                  message := gh_message commit;
                  author := Js.orStr (gh_authorName commit) "Unknown";
                  date := date';
                  url := gh_html_url commit;
                  stats := Some (statsOf commit);
                  files := Some (match gh_files commit with
                                 | Some fs => Z.of_nat (length fs)
                                 | None => 0
                                 end) |}))
    (consoleError (ErrorGettingCommitDetails sha0) ;;; ret None).

(** [getCommitFiles(sha)]. *)
Definition getCommitFiles (sha0 : string) : IO (list string) :=
  tryCatch
    (commit <- getCommit ByGetCommitFiles sha0 ;;
     ret (Js.defaultArg [] (gh_files commit)))
    (consoleError (ErrorGettingFiles sha0) ;;; ret []).

(** *** Row writer *)

Definition rowOf (commitData : CommitData) (day featureArea impactLevel : string)
  : NotionRow :=
  {| row_commitMessage := message commitData;
     row_githubSHA := sha commitData;
     row_githubURL := url commitData;
     row_author := author commitData;
     row_commitDate := day;
     row_repository := "CommunityGPT-MVP";
     row_featureArea := featureArea;
     row_impactLevel := impactLevel;
     row_linesAdded := Js.orZero (option_map additions (stats commitData));
     row_linesDeleted := Js.orZero (option_map deletions (stats commitData));
     row_filesChanged := Js.orZero (files commitData);
     row_status := "Committed";
     row_branch := "main" |}.

(** [createNotionCommit(commitData)]. *)
Definition createNotionCommit (commitData : CommitData) : IO bool :=
  tryCatch
    (paths <- getCommitFiles (sha commitData) ;;
     let featureArea := detectFeatureArea (message commitData) (Some paths) in
     let impactLevel :=
       detectImpactLevel (message commitData)
                         (option_map additions (stats commitData))
                         (option_map deletions (stats commitData)) in
     day <- orThrow (Date_isoDay (date commitData)) ;;
     pagesCreate (rowOf commitData day featureArea impactLevel) ;;;
     ret true)
    (consoleError (ErrorCreatingNotionEntry (sha commitData)) ;;; ret false).

(** *** Sync orchestrator *)

(** The variables the processing loop updates. *)
Record LoopState : Type := mkLoopState {
  cache : SyncCache;
  processedCount : Z;
  skippedCount : Z
}.

(** After a successful write: [processedCount++],
    [cache.processedSHAs.push(commit.sha)], [cache.totalProcessed++]. *)
Definition recordProcessed (commitSha : string) (st : LoopState) : LoopState :=
  {| cache := {| processedSHAs := processedSHAs (cache st) ++ [commitSha];
                 lastSync := lastSync (cache st);
                 totalProcessed := totalProcessed (cache st) + 1 |};
     processedCount := processedCount st + 1;
     skippedCount := skippedCount st |}.

(** After a cache hit: [skippedCount++]. *)
Definition recordSkipped (st : LoopState) : LoopState :=
  {| cache := cache st;
     processedCount := processedCount st;
     skippedCount := skippedCount st + 1 |}.

(** The body of [for (const commit of commits)]. *)
Definition processCommit (commit : CommitSummary) (st : LoopState)
  : IO LoopState :=
  if commitExistsInCache (cs_sha commit) (cache st) then
    ret (recordSkipped st)
  else
    commitData <- getCommitDetails (cs_sha commit) ;;
    match commitData with
    | None => ret st
    | Some data =>
        success <- createNotionCommit data ;;
        let st' := if success then recordProcessed (cs_sha commit) st else st in
        sleep 1000 ;;;
        ret st'
    end.

Fixpoint processCommits (commits : list CommitSummary) (st : LoopState)
  : IO LoopState :=
  match commits with
  | [] => ret st
  | commit :: rest =>
      st' <- processCommit commit st ;;
      processCommits rest st'
  end.

(** What a run of [syncRecentCommits] reports in its log lines. *)
Inductive SyncResult : Type :=
| NothingToSync
| SyncComplete (processed skipped : Z) (saved : SyncCache)
| SyncFailed.

Record SyncReport : Type := mkSyncReport {
  loaded : SyncCache;
  result : SyncResult
}.

(** From [let processedCount = 0] to the end of the [try] block. *)
Definition processAndSave (cache0 : SyncCache) (commits : list CommitSummary)
  : IO SyncResult :=
  st <- processCommits commits
          {| cache := cache0; processedCount := 0; skippedCount := 0 |} ;;
  let cleaned := cleanupCache (cache st) in
  now <- nowISOString ;;
  let final := {| processedSHAs := processedSHAs cleaned;
                  lastSync := now;
                  totalProcessed := totalProcessed cleaned |} in
  saveCache final ;;;
  ret (SyncComplete (processedCount st) (skippedCount st) final).

(** The [try] block of [syncRecentCommits]. *)
Definition syncTry (days : Z) (cache0 : SyncCache) : IO SyncResult :=
  now <- newDate ;;
  since <- toISOString (Date_minusDays now days) ;;
  allCommits <- listCommits None 10 ;;
  commits <- listCommits (Some since) 50 ;;
  if (length commits =? 0)%nat then
    now' <- newDate ;;
    let longerSince := Date_minusDays now' 30 in
    longerCommits <- listCommits (Some (Date_toISOString longerSince)) 50 ;;
    if (0 <? length longerCommits)%nat then
      processAndSave cache0 longerCommits
    else ret NothingToSync
  else processAndSave cache0 commits.

(** [syncRecentCommits(days)]. *)
Definition syncRecentCommits (days : Z) : IO SyncReport :=
  cache0 <- loadCache ;;
  res <- tryCatch (syncTry days cache0)
                  (consoleError ErrorDuringSync ;;; ret SyncFailed) ;;
  ret {| loaded := cache0; result := res |}.

(** *** Command line *)

(** [args[0] ? parseInt(args[0]) : 7]. *)
Definition daysOf (args : list string) : JsNumber :=
  if Js.truthyStr (nth_error args 0)
  then ParseInt.parseInt (Js.orStr (nth_error args 0) "")
  else JsInt 7.

(** [isNaN(days) || days < 1 || days > 365]. *)
Definition invalidDays (days : JsNumber) : bool :=
  match days with
  | JsNaN => true
  | JsInt d => (d <? 1) || (365 <? d)
  | JsHuge _ => true
  end.

(** The window handed to the sync once it has passed the check. *)
Definition windowOf (days : JsNumber) : Z :=
  match days with
  | JsInt d => d
  | _ => 0
  end.

(** [main()], on [args = process.argv.slice(2)]. *)
Definition main (args : list string) : IO unit :=
  tryCatch
    ((if Js.arrayIncludes args "--clear-cache" then
        found <- existsSync CACHE_FILE ;;
        (if found then unlinkSync CACHE_FILE else ret tt) ;;;
        processExit 0
      else ret tt) ;;;
     let days := daysOf args in
     (if invalidDays days then
        consoleError InvalidDaysParameter ;;; processExit 1
      else ret tt) ;;;
     (if negb (Js.truthyStr NOTION_TOKEN) || negb (Js.truthyStr GITHUB_TOKEN) then
        consoleError MissingEnvironmentVariables ;;; processExit 1
      else ret tt) ;;;
     syncRecentCommits (windowOf days) ;;;
     ret tt)
    (consoleError FatalErrorInMain ;;; processExit 1).

End Program.

(** ** A concrete runtime

    A small world in which the script can be run: one file, a clock that
    advances by one at each reading, a script of answers for the windowed
    commit-list requests, and a host and a database that fail on chosen
    inputs. *)

Module Demo.

Record DemoWorld : Type := mkDemoWorld {
  dw_file : option string;
  dw_clock : Z;
  dw_windows : list (list CommitSummary);
  dw_slept : Z
}.

Definition setFile (f : option string) (w : DemoWorld) : DemoWorld :=
  {| dw_file := f; dw_clock := dw_clock w;
     dw_windows := dw_windows w; dw_slept := dw_slept w |}.

Definition tick (w : DemoWorld) : DemoWorld * Z :=
  ({| dw_file := dw_file w; dw_clock := dw_clock w + 1;
      dw_windows := dw_windows w; dw_slept := dw_slept w |}, dw_clock w).

(** The unfiltered probe sees nothing; each windowed request takes the
    next scripted answer. *)
Definition answerList (since : option string) (per_page : Z) (w : DemoWorld)
  : DemoWorld * option (list CommitSummary) :=
  match since, dw_windows w with
  | None, _ => (w, Some [])
  | Some _, [] => (w, None)
  | Some _, l :: rest =>
      ({| dw_file := dw_file w; dw_clock := dw_clock w;
          dw_windows := rest; dw_slept := dw_slept w |}, Some l)
  end.

(** The host knows every commit but those whose reference starts with
    "gone". *)
Definition answerCommit (ref : string) (w : DemoWorld)
  : DemoWorld * option GhCommit :=
  if String.prefix "gone" ref then (w, None)
  else (w, Some {| gh_message := "feat: " ++ ref;
                   gh_authorName := Some "dev";
                   gh_authorDate := Some "2025-09-06T16:35:48.831Z";
                   gh_html_url := "https://example.test/commit/" ++ ref;
                   gh_stats := Some {| gs_additions := Some 10;
                                       gs_deletions := Some 5;
                                       gs_total := Some 15 |};
                   gh_files := Some ["src/app.ts"] |}).

(** The database refuses the rows whose identifier starts with "bad". *)
Definition answerCreate (row : NotionRow) (w : DemoWorld) : DemoWorld * bool :=
  (w, negb (String.prefix "bad" (row_githubSHA row))).

Fixpoint splitOn (sep : ascii) (s : string) (cur : string) : list string :=
  match s with
  | EmptyString => [cur]
  | String c s' =>
      if Ascii.eqb c sep then cur :: splitOn sep s' ""
      else splitOn sep s' (cur ++ String c "")
  end.

(** A toy file format: "null", "{}", or "shas:" followed by
    comma-separated identifiers; anything else does not parse. *)
Definition parse (text : string) : option ParsedCache :=
  if String.eqb text "null" then Some ParsedNull
  else if String.eqb text "{}" then Some (ParsedFields None None None)
  else if String.prefix "shas:" text
       then let ids := splitOn "," (String.substring 5 (String.length text) text) "" in
            Some (ParsedFields (Some ids) (Some "2025-01-01T00:00:00.000Z")
                               (Some (Z.of_nat (length ids))))
       else None.

Definition stringify (c : SyncCache) : string :=
  "shas:" ++ String.concat "," (processedSHAs c).

Definition isoOf (t : Z) : string :=
  "ms:" ++ NilZero.string_of_int (Z.to_int t).

#[export] Instance runtime : Runtime := {|
  World := DemoWorld;
  fs_existsSync := fun _ w =>
    (w, match dw_file w with Some _ => true | None => false end);
  fs_readFileSync := fun _ w => (w, dw_file w);
  fs_writeFileSync := fun _ data w => (setFile (Some data) w, true);
  fs_unlinkSync := fun _ w => (setFile None w, true);
  JSON_parse := parse;
  JSON_stringify := stringify;
  Date_now := tick;
  Date_toISOString := isoOf;
  Date_minusDays := fun t d => t - d * 86400000;
  Date_isoDay := fun s =>
    if String.eqb s "" then None else Some (String.substring 0 10 s);
  octokit_listCommits := answerList;
  octokit_getCommit := answerCommit;
  notion_pagesCreate := answerCreate;
  setTimeout_wait := fun ms w =>
    {| dw_file := dw_file w; dw_clock := dw_clock w + ms;
       dw_windows := dw_windows w; dw_slept := dw_slept w + ms |};
  NOTION_TOKEN := Some "secret_notion";
  GITHUB_TOKEN := Some "ghp_github"
|}.

Definition commitOf (id : string) : CommitSummary :=
  {| cs_sha := id; cs_message := "feat: " ++ id; cs_authorDate := None |}.

(** No cache file, nothing in the requested window, three commits in the
    thirty-day window. *)
Definition fallbackWorld : DemoWorld :=
  {| dw_file := None; dw_clock := 1000000000000;
     dw_windows := [ [];
                     [commitOf "aaaaaaaa1111"; commitOf "bbbbbbbb2222";
                      commitOf "cccccccc3333"] ]%list;
     dw_slept := 0 |}.

(** No cache file and no commit in either window. *)
Definition emptyWorld : DemoWorld :=
  {| dw_file := None; dw_clock := 1000000000000;
     dw_windows := [ []; [] ]; dw_slept := 0 |}.

(** A cache file that does not parse. *)
Definition corruptWorld : DemoWorld :=
  {| dw_file := Some "{ not json"; dw_clock := 42;
     dw_windows := []; dw_slept := 0 |}.

Definition commitA : CommitSummary := commitOf "aaaaaaaa1111".
Definition commitB : CommitSummary := commitOf "bbbbbbbb2222".

(** A commit the host does not know, and one whose row the database
    refuses. *)
Definition commitGone : CommitSummary := commitOf "gone5678abcd".
Definition commitBad : CommitSummary := commitOf "bad12345abcd".

(** The empty cache the script starts from when there is no cache file and
    the clock reads [t]. *)
Definition freshCache (t : Z) : SyncCache :=
  {| processedSHAs := []; lastSync := isoOf t; totalProcessed := 0 |}.

(** A loop state whose cache holds the first of the three commits. *)
Definition seenA : LoopState :=
  {| cache := {| processedSHAs := ["aaaaaaaa1111"];
                 lastSync := "2025-01-01T00:00:00.000Z";
                 totalProcessed := 1 |};
     processedCount := 0; skippedCount := 0 |}.

Definition seenNothing : LoopState :=
  {| cache := freshCache 0; processedCount := 0; skippedCount := 0 |}.

(** The record the detail fetcher builds for [commitBad]. *)
Definition recordBad : CommitData :=
  {| sha := "bad1234";
     message := "feat: bad12345abcd";
     author := "dev";
     date := "2025-09-06T16:35:48.831Z";
     url := "https://example.test/commit/bad12345abcd";
     stats := Some {| additions := 10; deletions := 5; total := 15 |};
     files := Some 1 |}.

(** A cache file that holds the JSON value [null]. *)
Definition nullWorld : DemoWorld :=
  {| dw_file := Some "null"; dw_clock := 42; dw_windows := []; dw_slept := 0 |}.

(** A cache file that holds two identifiers. *)
Definition savedWorld : DemoWorld :=
  {| dw_file := Some "shas:aaaaaaaa1111,bbbbbbbb2222"; dw_clock := 42;
     dw_windows := []; dw_slept := 0 |}.

(** No cache file, two commits in the requested window. *)
Definition primaryWorld : DemoWorld :=
  {| dw_file := None; dw_clock := 1000000000000;
     dw_windows := [ [commitA; commitB] ]%list; dw_slept := 0 |}.

(** A loop state whose cache holds the first two commits. *)
Definition seenAB : LoopState :=
  {| cache := {| processedSHAs := ["aaaaaaaa1111"; "bbbbbbbb2222"];
                 lastSync := "2025-01-01T00:00:00.000Z";
                 totalProcessed := 2 |};
     processedCount := 0; skippedCount := 0 |}.

(** The same runtime without the first token. *)
Definition noTokenRuntime : Runtime := {|
  World := DemoWorld;
  fs_existsSync := fun _ w =>
    (w, match dw_file w with Some _ => true | None => false end);
  fs_readFileSync := fun _ w => (w, dw_file w);
  fs_writeFileSync := fun _ data w => (setFile (Some data) w, true);
  fs_unlinkSync := fun _ w => (setFile None w, true);
  JSON_parse := parse;
  JSON_stringify := stringify;
  Date_now := tick;
  Date_toISOString := isoOf;
  Date_minusDays := fun t d => t - d * 86400000;
  Date_isoDay := fun s =>
    if String.eqb s "" then None else Some (String.substring 0 10 s);
  octokit_listCommits := answerList;
  octokit_getCommit := answerCommit;
  notion_pagesCreate := answerCreate;
  setTimeout_wait := fun ms w =>
    {| dw_file := dw_file w; dw_clock := dw_clock w + ms;
       dw_windows := dw_windows w; dw_slept := dw_slept w + ms |};
  NOTION_TOKEN := None;
  GITHUB_TOKEN := Some "ghp_github"
|}.

End Demo.

(** ** What the documentation promises, restated

    Definitions that follow the wording of the documentation, to compare
    with the functions above. *)

(** The [n] most recently appended entries of a sequence, in order. *)
Definition mostRecent {A : Type} (n : nat) (l : list A) : list A :=
  rev (firstn n (rev l)).






Section Documented.
Context {R : Runtime}.

(** The cache file does not exist. *)
Definition cacheFileMissing (w : World) : Prop :=
  snd (fs_existsSync CACHE_FILE w) = false.

(** The cache file exists, is read, and its text is not JSON. *)
Definition cacheFileCorrupt (w : World) : Prop :=
  snd (fs_existsSync CACHE_FILE w) = true
  /\ exists text,
       snd (fs_readFileSync CACHE_FILE (fst (fs_existsSync CACHE_FILE w)))
       = Some text
       /\ JSON_parse text = None.

(** A run that comes after the events [tr]. *)
Definition preceded {A : Type} (tr : list Event) (r : Run A) : Run A :=
  mkRun (after r) (tr ++ trace r)%list (completion r).

(** One successful iteration of the loop, seen from outside: some events
    that are neither a submission nor a delay, then the submission, then
    the delay of one second. *)
Definition writeThenDelay (seg : list Event * NotionRow) : list Event :=
  (fst seg ++ [EvPagesCreate (snd seg) true; EvSleep 1000])%list.

(** What precedes the submission in the iteration for commit [c]: the
    detail fetch for the full identifier and the file-path fetch for its
    first seven characters. *)
Definition segmentOf (c : CommitSummary) (seg : list Event * NotionRow) : Prop :=
  detailFetches (fst seg) = [cs_sha c]
  /\ fileFetches (fst seg) = [Js.substring0 7 (cs_sha c)]
  /\ rowWrites (fst seg) = [] /\ sleeps (fst seg) = []
  /\ listRequests (fst seg) = [] /\ fileWrites (fst seg) = []
  /\ row_githubSHA (snd seg) = Js.substring0 7 (cs_sha c).

(** The loop state after every commit of [commits] was written. *)
Definition allProcessed (commits : list CommitSummary) (st : LoopState)
  : LoopState :=
  fold_left (fun s c => recordProcessed (cs_sha c) s) commits st.

(** The answer to the second commit-list request of a run, the one for
    the requested window (the first request is the connectivity probe). *)
Definition primaryAnswer (tr : list Event)
  : option (option (list CommitSummary)) :=
  option_map snd (nth_error (listRequests tr) 1).




(** The documented shape of a commit record, read literally: its
    identifier is the full identifier the fetcher was asked for, and that
    is the identifier the row writer fetches the file paths of. *)
Definition recordCarriesFullId : Prop :=
  forall (id : string) (w : World) (data : CommitData),
    completion (getCommitDetails id w) = Normal (Some data) ->
    sha data = id
    /\ forall w', fileFetches (trace (createNotionCommit data w')) = [id].


End Documented.


(** The rows the database accepted. *)
Definition acceptedWrites : list Event -> list NotionRow :=
  pick (fun e => match e with EvPagesCreate row true => Some row | _ => None end).

Section DocumentedMore.
Context {R : Runtime}.

(** The cache file exists, is read, and its text parses to [doc]. *)
Definition cacheFileHolds (w : World) (doc : ParsedCache) : Prop :=
  snd (fs_existsSync CACHE_FILE w) = true
  /\ exists text,
       snd (fs_readFileSync CACHE_FILE (fst (fs_existsSync CACHE_FILE w)))
       = Some text
       /\ JSON_parse text = Some doc.

(** The loop state after [n] more commits were skipped. *)
Definition skippedMore (n : nat) (st : LoopState) : LoopState :=
  {| cache := cache st;
     processedCount := processedCount st;
     skippedCount := skippedCount st + Z.of_nat n |}.

End DocumentedMore.

(** * Properties *)

(** ** Classifiers *)

Example toLowerCase_example : Js.toLowerCase "Fix CHAT Bug" = "fix chat bug".
Proof. reflexivity. Qed.

(** "build" contains "ui": rule 5 fires before rule 7 is looked at. *)
Example detectFeatureArea_build :
  detectFeatureArea "Bump build image" (Some ["Dockerfile"]) = "UI/UX".
Proof. reflexivity. Qed.

Example detectFeatureArea_paths :
  detectFeatureArea "wire things" (Some ["src/Chat.tsx"; "README.md"])
  = "Chat Interface".
Proof. reflexivity. Qed.

Lemma firstMatch_none {I : Type} (rules : list (@Rule I)) (d : string) (i : I) :
  existsb (fun r => fst r i) rules = false -> firstMatch rules d i = d.
Proof.
  induction rules as [|[p label] rest IH]; simpl; [reflexivity|].
  intros H. apply orb_false_iff in H. destruct H as [Hp Hrest].
  rewrite Hp. now apply IH.
Qed.

(** C5. [detectFeatureArea] is a function of its two arguments alone (it is
    embedded outside [IO]: its body calls nothing of the runtime), and it
    is the first-match evaluation of the eight documented rules, in their
    order, on the lower-cased message and the lower-cased space-joined
    paths; an omitted file list is the empty list; "fix chat bug" with no
    files is "Chat Interface" although rule 8 also matches it; and when no
    rule matches the label is "Chat Interface", the label of rule 1. *)
Theorem detectFeatureArea_first_match (message : string) (paths : list string) :
  detectFeatureArea message (Some paths)
  = firstMatch featureRules "Chat Interface" (featureInput message paths)
  /\ detectFeatureArea message None = detectFeatureArea message (Some [])
  /\ map snd featureRules
     = ["Chat Interface"; "BigQuery Integration"; "AI/Claude API";
        "Database/Supabase"; "UI/UX"; "Testing"; "Deployment"; "Bug Fix"]
  /\ detectFeatureArea "fix chat bug" (Some []) = "Chat Interface"
  /\ detectFeatureArea "fix chat bug" None = "Chat Interface"
  /\ firstMatch (skipn 7 featureRules) "Chat Interface"
                (featureInput "fix chat bug" []) = "Bug Fix"
  /\ (existsb (fun r => fst r (featureInput message paths)) featureRules = false ->
      detectFeatureArea message (Some paths) = "Chat Interface").
Proof.
  assert (E : detectFeatureArea message (Some paths)
              = firstMatch featureRules "Chat Interface"
                           (featureInput message paths)).
  { cbv [detectFeatureArea firstMatch featureRules anyOf existsb msgHas pathHas
         featureInput fst snd Js.defaultArg].
    rewrite !orb_false_r, !orb_assoc. reflexivity. }
  repeat split; try reflexivity.
  - exact E.
  - intros H. rewrite E. now apply firstMatch_none.
Qed.

(** A message and file list that no rule matches. *)
Lemma detectFeatureArea_first_match_witness :
  existsb (fun r => fst r (featureInput "Initial commit" ["LICENSE"]))
          featureRules = false
  /\ detectFeatureArea "Initial commit" (Some ["LICENSE"]) = "Chat Interface".
Proof.
  split; [reflexivity|].
  apply (detectFeatureArea_first_match "Initial commit" ["LICENSE"]).
  reflexivity.
Defined.

(** C6. [detectImpactLevel] adds additions and deletions and is the
    first-match evaluation of its rule chain; the three documented
    examples. *)
Theorem detectImpactLevel_first_match (message : string) (added deleted : Z) :
  detectImpactLevel message (Some added) (Some deleted)
  = firstMatch impactRules "Minor Feature" (impactInput message added deleted)
  /\ snd (impactInput message added deleted) = added + deleted
  /\ detectImpactLevel "feat: add widget" (Some 10) (Some 5) = "Major Feature"
  /\ detectImpactLevel "update copy" (Some 60) (Some 0) = "Minor Feature"
  /\ detectImpactLevel "small tweak" (Some 5) (Some 2) = "Minor Feature".
Proof.
  repeat split.
  cbv [detectImpactLevel firstMatch impactRules anyOf existsb textHas
       changesAbove impactInput fst snd Js.defaultArg].
  rewrite !orb_false_r, !orb_assoc. reflexivity.
Qed.

(** The prefix rule decides before the line count is looked at; without
    the prefix the same counts give the fallback label. *)
Example detectImpactLevel_prefix_first :
  detectImpactLevel "add widget" (Some 10) (Some 5) = "Minor Feature"
  /\ detectImpactLevel "big change" (Some 150) (Some 51) = "Major Feature"
  /\ detectImpactLevel "fix: typo" None None = "Bug Fix".
Proof. repeat split. Qed.

(** ** Cache *)

Lemma mostRecent_skipn {A : Type} (n : nat) (l : list A) :
  mostRecent n l = skipn (length l - n) l.
Proof.
  unfold mostRecent. rewrite firstn_rev. apply rev_involutive.
Qed.

Lemma sliceLast_short {A : Type} (n : nat) (l : list A) :
  (length l <= n)%nat -> Js.sliceLast n l = l.
Proof.
  intros H. unfold Js.sliceLast.
  replace (length l - n)%nat with 0%nat by lia. reflexivity.
Qed.

Lemma sliceLast_length {A : Type} (n : nat) (l : list A) :
  length (Js.sliceLast n l) = Nat.min (length l) n.
Proof. unfold Js.sliceLast. rewrite length_skipn. lia. Qed.

Lemma cleanupCache_shas (c : SyncCache) :
  processedSHAs (cleanupCache c) = Js.sliceLast MAX_CACHE_SIZE (processedSHAs c).
Proof.
  unfold cleanupCache.
  destruct (Nat.ltb_spec MAX_CACHE_SIZE (length (processedSHAs c))) as [H|H].
  - reflexivity.
  - symmetry. now apply sliceLast_short.
Qed.

(** C3. After [cleanupCache] the identifier list has at most
    [MAX_CACHE_SIZE] = 1000 entries; it is the list of the 1000 most
    recently appended entries of the old one, in order (what was dropped is
    a prefix); it is the old list when that had at most 1000 entries; and
    the two other fields are untouched. *)
Theorem cleanupCache_keeps_most_recent (c : SyncCache) :
  MAX_CACHE_SIZE = 1000%nat
  /\ (length (processedSHAs (cleanupCache c)) <= MAX_CACHE_SIZE)%nat
  /\ processedSHAs (cleanupCache c) = mostRecent MAX_CACHE_SIZE (processedSHAs c)
  /\ (exists dropped,
        processedSHAs c = (dropped ++ processedSHAs (cleanupCache c))%list
        /\ length dropped = (length (processedSHAs c) - MAX_CACHE_SIZE)%nat)
  /\ processedSHAs (cleanupCache c)
     = (if (length (processedSHAs c) <=? MAX_CACHE_SIZE)%nat
        then processedSHAs c
        else mostRecent MAX_CACHE_SIZE (processedSHAs c))
  /\ lastSync (cleanupCache c) = lastSync c
  /\ totalProcessed (cleanupCache c) = totalProcessed c.
Proof.
  pose proof (cleanupCache_shas c) as E.
  split; [reflexivity|].
  split; [rewrite E, sliceLast_length; lia|].
  split; [rewrite E; symmetry; apply mostRecent_skipn|].
  split.
  { exists (firstn (length (processedSHAs c) - MAX_CACHE_SIZE) (processedSHAs c)).
    rewrite E. unfold Js.sliceLast. split.
    - symmetry. apply firstn_skipn.
    - rewrite length_firstn. lia. }
  split.
  { destruct (Nat.leb_spec (length (processedSHAs c)) MAX_CACHE_SIZE) as [H|H].
    - rewrite E. now apply sliceLast_short.
    - rewrite E. symmetry. apply mostRecent_skipn. }
  unfold cleanupCache.
  destruct (MAX_CACHE_SIZE <? length (processedSHAs c))%nat; split; reflexivity.
Qed.

(** ** Computations: equations *)

Local Open Scope list_scope.

Section Equations.
Context {R : Runtime}.
Local Open Scope io_scope.

Lemma run_eta {A : Type} (r : Run A) :
  mkRun (after r) (trace r) (completion r) = r.
Proof. now destruct r. Qed.

Lemma bind_normal {A B : Type} (m : IO A) (k : A -> IO B) (w : World) (a : A) :
  completion (m w) = Normal a ->
  bind m k w = mkRun (after (k a (after (m w))))
                     (trace (m w) ++ trace (k a (after (m w))))
                     (completion (k a (after (m w)))).
Proof.
  intros H. unfold bind. destruct (m w) as [w1 t1 c1]. cbn in H. subst c1.
  cbn. now destruct (k a w1).
Qed.

Lemma pick_app {A : Type} (f : Event -> option A) (t1 t2 : list Event) :
  pick f (t1 ++ t2) = (pick f t1 ++ pick f t2)%list.
Proof. apply flat_map_app. Qed.

Lemma pick_cons {A : Type} (f : Event -> option A) (e : Event) (tr : list Event) :
  pick f (e :: tr)
  = match f e with Some a => a :: pick f tr | None => pick f tr end.
Proof. unfold pick. cbn. now destruct (f e). Qed.

Lemma pick_nil {A : Type} (f : Event -> option A) : pick f [] = [].
Proof. reflexivity. Qed.

Lemma pick_In {A : Type} (f : Event -> option A) (e : Event) (a : A)
      (tr : list Event) :
  In e tr -> f e = Some a -> In a (pick f tr).
Proof.
  intros Hin Hf. unfold pick. apply in_flat_map. exists e.
  split; [assumption|]. rewrite Hf. now left.
Qed.

Lemma pick_app_nil {A : Type} (f : Event -> option A) (t1 t2 : list Event) :
  pick f (t1 ++ t2) = [] -> pick f t1 = [] /\ pick f t2 = [].
Proof. rewrite pick_app. apply app_eq_nil. Qed.

End Equations.

(** Rewriting an observation of a composed trace into the observations of
    its parts. *)
Ltac split_picks :=
  unfold listRequests, detailFetches, fileFetches, rowWrites, sleeps, errors,
    failedDetails, failedWrites, fileWrites, clockReadings in *;
  repeat (rewrite ?pick_app, ?pick_cons, ?pick_nil in * ); cbn beta iota in *.


(** ** Loading the cache *)

Section CacheStore.
Context {R : Runtime}.

Lemma orElse_cases (o : option string) (d : IO string) (w : World) :
  (exists s, orElse o d w = mkRun w [] (Normal s)) \/ orElse o d w = d w.
Proof.
  destruct o as [s|]; simpl; [|now right].
  destruct (String.eqb s ""); [now right|left; now exists s].
Qed.

(** [loadCache] always returns a cache, and the only things it does are
    looking at the file and at the clock. *)
Lemma loadCache_returns (w : World) :
  exists c, completion (loadCache w) = Normal c /\ quiet (trace (loadCache w)).
Proof.
  unfold loadCache, tryCatch, loadCacheTry, bind, existsSync, readFileSync,
    orThrow, throw, ret, nowISOString, newDate.
  cbn.
  destruct (snd (fs_existsSync CACHE_FILE w)); cbn.
  2:{ eexists; split; [reflexivity|repeat split]. }
  destruct (snd (fs_readFileSync CACHE_FILE (fst (fs_existsSync CACHE_FILE w))))
    as [text|]; cbn.
  2:{ eexists; split; [reflexivity|repeat split]. }
  destruct (JSON_parse text) as [[|shas last count]|]; cbn.
  1,3: eexists; split; [reflexivity|repeat split].
  destruct last as [s|]; cbn.
  - destruct (String.eqb s ""); cbn;
      (eexists; split; [reflexivity|repeat split]).
  - eexists; split; [reflexivity|repeat split].
Qed.

(** C8. When the cache file is missing, or is there but does not parse,
    [loadCache] returns normally (no exception reaches the caller) with
    the empty cache: no identifiers, a count of 0, and [lastSync] the ISO
    form of the clock reading it takes last; and in every world
    [loadCache] returns normally. *)
Theorem loadCache_missing_or_corrupt (w : World) :
  (exists c, completion (loadCache w) = Normal c)
  /\ (cacheFileMissing w \/ cacheFileCorrupt w ->
      exists now pre,
        completion (loadCache w)
        = Normal {| processedSHAs := []; lastSync := Date_toISOString now;
                    totalProcessed := 0 |}
        /\ trace (loadCache w) = pre ++ [EvDateNow now]
        /\ clockReadings (trace (loadCache w)) = [now]
        /\ errors (trace (loadCache w)) = []).
Proof.
  split.
  { destruct (loadCache_returns w) as (c & Hc & _). now exists c. }
  unfold cacheFileMissing, cacheFileCorrupt, loadCache, tryCatch, loadCacheTry,
    bind, existsSync, readFileSync, orThrow, throw, ret, nowISOString, newDate,
    emptyCache.
  cbn.
  intros [Hmiss | (Hex & text & Hread & Hparse)].
  - rewrite Hmiss. cbn.
    eexists; exists [EvExistsSync CACHE_FILE false]; repeat split.
  - rewrite Hex. cbn. rewrite Hread. cbn. rewrite Hparse. cbn.
    eexists;
      exists [EvExistsSync CACHE_FILE true; EvReadFileSync CACHE_FILE (Some text)];
      repeat split.
Qed.

End CacheStore.

(** ** One commit *)

Section OneCommit.
Context {R : Runtime}.

Lemma commitExistsInCache_In (id : string) (c : SyncCache) :
  commitExistsInCache id c = true <-> In id (processedSHAs c).
Proof.
  unfold commitExistsInCache, Js.arrayIncludes. rewrite existsb_exists. split.
  - intros (x & Hin & Heq). apply String.eqb_eq in Heq. now subst.
  - intros Hin. exists id. split; [assumption|apply String.eqb_refl].
Qed.

Lemma commitExistsInCache_not_In (id : string) (c : SyncCache) :
  commitExistsInCache id c = false <-> ~ In id (processedSHAs c).
Proof.
  rewrite <- commitExistsInCache_In.
  destruct (commitExistsInCache id c); split; intros H; congruence.
Qed.

(** The detail fetcher: one request, and [null] with one error line
    exactly when the request throws. *)
Lemma getCommitDetails_failed (id : string) (w : World) :
  snd (octokit_getCommit id w) = None ->
  getCommitDetails id w
  = mkRun (fst (octokit_getCommit id w))
          [EvGetCommit ByGetCommitDetails id None;
           EvConsoleError (ErrorGettingCommitDetails id)]
          (Normal None).
Proof.
  intros H. unfold getCommitDetails, tryCatch, bind, getCommit. cbn.
  rewrite H. reflexivity.
Qed.

Lemma getCommitDetails_fetched (id : string) (w : World) (gc : GhCommit) :
  snd (octokit_getCommit id w) = Some gc ->
  exists data clk,
    completion (getCommitDetails id w) = Normal (Some data)
    /\ trace (getCommitDetails id w)
       = EvGetCommit ByGetCommitDetails id (Some gc) :: clk
    /\ quiet clk /\ failedDetails clk = [] /\ failedWrites clk = []
    /\ sha data = Js.substring0 7 id
    /\ message data = gh_message gc.
Proof.
  intros H. unfold getCommitDetails, tryCatch, bind, getCommit. cbn.
  rewrite H. cbn.
  destruct (orElse_cases (gh_authorDate gc) nowISOString
                         (fst (octokit_getCommit id w))) as [(s & E) | E];
    rewrite E; cbn; do 2 eexists; repeat split.
Qed.

Lemma getCommitDetails_cases (id : string) (w : World) :
  (completion (getCommitDetails id w) = Normal None
   /\ snd (octokit_getCommit id w) = None)
  \/ (exists data gc,
        completion (getCommitDetails id w) = Normal (Some data)
        /\ snd (octokit_getCommit id w) = Some gc).
Proof.
  destruct (snd (octokit_getCommit id w)) as [gc|] eqn:E.
  - right. destruct (getCommitDetails_fetched id w gc E) as (data & clk & H & _).
    now exists data, gc.
  - left. now rewrite (getCommitDetails_failed id w E).
Qed.

(** The file-path fetcher: one request, never an exception. *)
Lemma getCommitFiles_run (id : string) (w : World) :
  exists paths tail,
    completion (getCommitFiles id w) = Normal paths
    /\ trace (getCommitFiles id w)
       = EvGetCommit ByGetCommitFiles id (snd (octokit_getCommit id w)) :: tail
    /\ (tail = [] \/ tail = [EvConsoleError (ErrorGettingFiles id)]).
Proof.
  unfold getCommitFiles, tryCatch, bind, getCommit. cbn.
  destruct (snd (octokit_getCommit id w)) as [gc|]; cbn;
    do 2 eexists; repeat split; auto.
Qed.

(** The row writer: the file-path request for the record's identifier,
    then at most one submission; [false] with one error line exactly when
    the date or the submission throws. *)
Lemma createNotionCommit_run (data : CommitData) (w : World) :
  exists tail,
    trace (createNotionCommit data w)
    = trace (getCommitFiles (sha data) w) ++ tail
    /\ ((exists row,
           completion (createNotionCommit data w) = Normal true
           /\ tail = [EvPagesCreate row true]
           /\ row_githubSHA row = sha data
           /\ row_commitMessage row = message data)
        \/ (completion (createNotionCommit data w) = Normal false
            /\ ((exists row,
                   tail = [EvPagesCreate row false;
                           EvConsoleError (ErrorCreatingNotionEntry (sha data))]
                   /\ row_githubSHA row = sha data)
                \/ tail = [EvConsoleError
                             (ErrorCreatingNotionEntry (sha data))]))).
Proof.
  destruct (getCommitFiles_run (sha data) w) as (paths & ftail & Hc & Ht & _).
  unfold createNotionCommit, tryCatch.
  rewrite (bind_normal _ _ _ _ Hc).
  unfold bind, pagesCreate, orThrow, throw, ret, consoleError, emit.
  cbn.
  destruct (Date_isoDay (date data)) as [day|]; cbn.
  - match goal with
    | |- context [notion_pagesCreate ?row ?w'] =>
        destruct (snd (notion_pagesCreate row w')) eqn:E
    end; cbn.
    + eexists; split; [reflexivity|]. left. eexists. repeat split.
    + eexists; split; [rewrite <- app_assoc; reflexivity|].
      right. split; [reflexivity|]. left. eexists. split; reflexivity.
  - eexists; split; [rewrite app_nil_r; reflexivity|].
    right. split; [reflexivity|]. right. reflexivity.
Qed.

Lemma processCommits_step (c : CommitSummary) (rest : list CommitSummary)
      (st st' : LoopState) (w : World) :
  completion (processCommit c st w) = Normal st' ->
  processCommits (c :: rest) st w
  = preceded (trace (processCommit c st w))
             (processCommits rest st' (after (processCommit c st w))).
Proof. intros H. cbn [processCommits]. now rewrite (bind_normal _ _ _ _ H). Qed.

Lemma processCommit_cached (c : CommitSummary) (st : LoopState) (w : World) :
  commitExistsInCache (cs_sha c) (cache st) = true ->
  processCommit c st w = mkRun w [] (Normal (recordSkipped st)).
Proof. intros H. unfold processCommit. now rewrite H. Qed.

Lemma processCommit_detail_failed (c : CommitSummary) (st : LoopState) (w : World) :
  commitExistsInCache (cs_sha c) (cache st) = false ->
  completion (getCommitDetails (cs_sha c) w) = Normal None ->
  processCommit c st w
  = mkRun (after (getCommitDetails (cs_sha c) w))
          (trace (getCommitDetails (cs_sha c) w)) (Normal st).
Proof.
  intros Hc Hd. unfold processCommit. rewrite Hc.
  rewrite (bind_normal _ _ _ _ Hd). cbn. now rewrite app_nil_r.
Qed.

Lemma processCommit_attempted (c : CommitSummary) (st : LoopState) (w : World)
      (data : CommitData) (ok : bool) :
  commitExistsInCache (cs_sha c) (cache st) = false ->
  completion (getCommitDetails (cs_sha c) w) = Normal (Some data) ->
  completion (createNotionCommit data (after (getCommitDetails (cs_sha c) w)))
  = Normal ok ->
  processCommit c st w
  = mkRun (setTimeout_wait 1000
             (after (createNotionCommit data
                       (after (getCommitDetails (cs_sha c) w)))))
          (trace (getCommitDetails (cs_sha c) w)
           ++ trace (createNotionCommit data
                       (after (getCommitDetails (cs_sha c) w)))
           ++ [EvSleep 1000])
          (Normal (if ok then recordProcessed (cs_sha c) st else st)).
Proof.
  intros Hc Hd Hw. unfold processCommit. rewrite Hc.
  rewrite (bind_normal _ _ _ _ Hd). cbn.
  rewrite (bind_normal _ _ _ _ Hw). cbn. reflexivity.
Qed.

Lemma getCommitDetails_trace_failed (id : string) (w : World) :
  completion (getCommitDetails id w) = Normal None ->
  trace (getCommitDetails id w)
  = [EvGetCommit ByGetCommitDetails id None;
     EvConsoleError (ErrorGettingCommitDetails id)].
Proof.
  intros H. destruct (snd (octokit_getCommit id w)) as [gc|] eqn:E.
  - destruct (getCommitDetails_fetched id w gc E) as (data & clk & H' & _).
    congruence.
  - now rewrite (getCommitDetails_failed id w E).
Qed.

Lemma getCommitDetails_trace_fetched (id : string) (w : World) (data : CommitData) :
  completion (getCommitDetails id w) = Normal (Some data) ->
  exists gc clk,
    trace (getCommitDetails id w)
    = EvGetCommit ByGetCommitDetails id (Some gc) :: clk
    /\ quiet clk /\ failedDetails clk = [] /\ failedWrites clk = []
    /\ sha data = Js.substring0 7 id
    /\ message data = gh_message gc.
Proof.
  intros H. destruct (snd (octokit_getCommit id w)) as [gc|] eqn:E.
  - destruct (getCommitDetails_fetched id w gc E)
      as (data' & clk & H' & Ht & Hq & Hfd & Hfw & Hs & Hm).
    assert (data' = data) by congruence. subst data'.
    exists gc, clk. repeat split; try assumption; apply Hq.
  - rewrite (getCommitDetails_failed id w E) in H. discriminate.
Qed.

(** What a run of the row writer leaves in the trace. *)
Lemma createNotionCommit_observed (data : CommitData) (w : World) :
  fileFetches (trace (createNotionCommit data w)) = [sha data]
  /\ detailFetches (trace (createNotionCommit data w)) = []
  /\ sleeps (trace (createNotionCommit data w)) = []
  /\ listRequests (trace (createNotionCommit data w)) = []
  /\ fileWrites (trace (createNotionCommit data w)) = []
  /\ failedDetails (trace (createNotionCommit data w)) = []
  /\ (length (rowWrites (trace (createNotionCommit data w))) <= 1)%nat
  /\ Forall (fun row => row_githubSHA row = sha data)
            (rowWrites (trace (createNotionCommit data w))).
Proof.
  destruct (createNotionCommit_run data w) as (tail & Ht & Hcase).
  destruct (getCommitFiles_run (sha data) w) as (paths & ft & _ & Hf & Hft).
  rewrite Ht, Hf.
  destruct Hcase as [(row & _ & -> & Hsha & _)
                    | (_ & [(row & -> & Hsha) | ->])];
    destruct Hft as [-> | ->]; cbn; repeat split;
      try lia; repeat constructor; assumption.
Qed.

(** C1. A commit whose identifier is in the cache when the loop reaches it
    causes no event at all (no detail fetch, no row write, no delay) and
    leaves the world as it was; the skip counter goes up by exactly one,
    the processed counter and the cache stay; and the loop goes on with
    the next commit at once. *)
Theorem cached_commit_is_skipped (c : CommitSummary) (rest : list CommitSummary)
        (st : LoopState) (w : World) :
  In (cs_sha c) (processedSHAs (cache st)) ->
  processCommit c st w = mkRun w [] (Normal (recordSkipped st))
  /\ skippedCount (recordSkipped st) = skippedCount st + 1
  /\ processedCount (recordSkipped st) = processedCount st
  /\ cache (recordSkipped st) = cache st
  /\ processCommits (c :: rest) st w = processCommits rest (recordSkipped st) w
  /\ detailFetches (trace (processCommit c st w)) = []
  /\ rowWrites (trace (processCommit c st w)) = []
  /\ sleeps (trace (processCommit c st w)) = [].
Proof.
  intros Hin. apply commitExistsInCache_In in Hin.
  pose proof (processCommit_cached c st w Hin) as E.
  rewrite E. repeat split.
  cbn [processCommits]. unfold bind. rewrite E.
  now destruct (processCommits rest (recordSkipped st) w).
Qed.

(** C7. For a commit that is not in the cache: when the detail fetch
    fails, the iteration is that one fetch and nothing else, the loop
    state (cache and both counters) is what it was, and the loop goes on
    with the next commit; when the row write fails, the iteration is the
    detail fetch, the one write attempt and the delay, the loop state is
    what it was, and the loop goes on with the next commit.  In both
    cases the host is asked for the details once and the database gets at
    most one submission. *)
Theorem failed_commit_leaves_state (c : CommitSummary)
        (rest : list CommitSummary) (st : LoopState) (w : World) :
  ~ In (cs_sha c) (processedSHAs (cache st)) ->
  let d := getCommitDetails (cs_sha c) w in
  (completion d = Normal None ->
   processCommit c st w = mkRun (after d) (trace d) (Normal st)
   /\ detailFetches (trace d) = [cs_sha c]
   /\ fileFetches (trace d) = [] /\ rowWrites (trace d) = []
   /\ sleeps (trace d) = []
   /\ processCommits (c :: rest) st w
      = preceded (trace d) (processCommits rest st (after d)))
  /\ (forall data,
        completion d = Normal (Some data) ->
        let cr := createNotionCommit data (after d) in
        completion cr = Normal false ->
        let tr := trace d ++ trace cr ++ [EvSleep 1000] in
        processCommit c st w
        = mkRun (setTimeout_wait 1000 (after cr)) tr (Normal st)
        /\ detailFetches tr = [cs_sha c]
        /\ fileFetches tr = [sha data]
        /\ (length (rowWrites tr) <= 1)%nat
        /\ processCommits (c :: rest) st w
           = preceded tr (processCommits rest st (setTimeout_wait 1000 (after cr)))).
Proof.
  intros Hnot d. apply commitExistsInCache_not_In in Hnot. split.
  - intros Hd.
    pose proof (processCommit_detail_failed c st w Hnot Hd) as E.
    pose proof (getCommitDetails_trace_failed _ _ Hd) as Ht.
    fold d in E, Ht. split; [exact E|].
    rewrite Ht. repeat split.
    rewrite <- Ht.
    rewrite (processCommits_step c rest st st w); rewrite E; reflexivity.
  - intros data Hd cr Hw tr.
    pose proof (processCommit_attempted c st w data false Hnot Hd Hw) as E.
    fold d in E. fold cr in E. fold tr in E. cbn in E.
    destruct (getCommitDetails_trace_fetched _ _ _ Hd)
      as (gc & clk & Ht & Hq & _).
    destruct (createNotionCommit_observed data (after d))
      as (Hff & Hdf & Hsl & Hlr & Hfw & Hfd & Hlen & _).
    fold d in Ht. fold cr in Hff, Hdf, Hlen.
    destruct Hq as (q1 & q2 & q3 & q4 & q5 & q6 & q7).
    split; [exact E|].
    assert (Hdet : detailFetches tr = [cs_sha c]).
    { subst tr. rewrite Ht. split_picks. rewrite q2, Hdf. reflexivity. }
    assert (Hfil : fileFetches tr = [sha data]).
    { subst tr. rewrite Ht. split_picks. rewrite q3, Hff. reflexivity. }
    assert (Hrow : (length (rowWrites tr) <= 1)%nat).
    { subst tr. rewrite Ht. split_picks. rewrite q4. cbn.
      rewrite app_nil_r. exact Hlen. }
    repeat split; try assumption.
    rewrite (processCommits_step c rest st st w); rewrite E; reflexivity.
Qed.

(** C10, as the code has it. The record the detail fetcher builds carries
    only the first seven characters of the identifier it was asked for;
    the row writer asks for the file paths of that short form and submits
    that short form; the loop keeps the full identifier for itself: when
    it reaches a commit with that identifier that is not in the cache and
    the row is accepted, it asks for the details of the full identifier,
    the file paths are asked of the short form, every row submitted
    carries the short form, and it is the full identifier that is appended
    to the cache. *)
Theorem commit_record_has_short_id (id : string) (w : World) (data : CommitData) :
  completion (getCommitDetails id w) = Normal (Some data) ->
  sha data = Js.substring0 7 id
  /\ (String.length (sha data) <= 7)%nat
  /\ (forall w',
        fileFetches (trace (createNotionCommit data w')) = [Js.substring0 7 id]
        /\ Forall (fun row => row_githubSHA row = Js.substring0 7 id)
                  (rowWrites (trace (createNotionCommit data w'))))
  /\ (forall (c : CommitSummary) (st : LoopState),
        cs_sha c = id ->
        ~ In id (processedSHAs (cache st)) ->
        completion (createNotionCommit data (after (getCommitDetails id w)))
        = Normal true ->
        completion (processCommit c st w) = Normal (recordProcessed id st)
        /\ processedSHAs (cache (recordProcessed id st))
           = processedSHAs (cache st) ++ [id]
        /\ detailFetches (trace (processCommit c st w)) = [id]
        /\ fileFetches (trace (processCommit c st w)) = [Js.substring0 7 id]
        /\ Forall (fun row => row_githubSHA row = Js.substring0 7 id)
                  (rowWrites (trace (processCommit c st w)))).
Proof.
  intros H.
  destruct (getCommitDetails_trace_fetched _ _ _ H)
    as (gc & clk & Htr & Hq & _ & _ & Hs & _).
  split; [exact Hs|]. split.
  { rewrite Hs. unfold Js.substring0. clear.
    generalize 7%nat as n. induction id as [|ch id IH]; intros n.
    - destruct n; cbn; lia.
    - destruct n; cbn; [lia|]. specialize (IH n). lia. }
  split.
  - intros w'. rewrite <- Hs.
    destruct (createNotionCommit_observed data w') as (Hff & _ & _ & _ & _ & _ & _ & Hall).
    now split.
  - intros c st Hid Hnew Hok. subst id.
    assert (Hc : commitExistsInCache (cs_sha c) (cache st) = false).
    { destruct (commitExistsInCache (cs_sha c) (cache st)) eqn:E; [|reflexivity].
      apply commitExistsInCache_In in E. contradiction. }
    rewrite (processCommit_attempted c st w data true Hc H Hok).
    destruct (createNotionCommit_observed data (after (getCommitDetails (cs_sha c) w)))
      as (Hff & Hdf & _ & _ & _ & _ & _ & Hall).
    destruct Hq as (_ & q2 & q3 & q4 & _).
    cbn [completion trace]. rewrite Htr, <- Hs.
    split; [reflexivity|]. split; [reflexivity|].
    unfold detailFetches, fileFetches, rowWrites in *.
    rewrite !pick_app, !pick_cons, !pick_nil, q2, q3, q4, Hff, Hdf.
    cbn [app]. rewrite !app_nil_r.
    split; [reflexivity|]. split; [reflexivity|]. exact Hall.
Qed.

End OneCommit.

(** ** The processing loop *)

Section Loop.
Context {R : Runtime}.

Lemma processCommit_returns (c : CommitSummary) (st : LoopState) (w : World) :
  exists st', completion (processCommit c st w) = Normal st'.
Proof.
  destruct (commitExistsInCache (cs_sha c) (cache st)) eqn:Hc.
  - rewrite (processCommit_cached c st w Hc). now eexists.
  - destruct (getCommitDetails_cases (cs_sha c) w)
      as [[Hd _] | (data & gc & Hd & _)].
    + rewrite (processCommit_detail_failed c st w Hc Hd). now eexists.
    + destruct (createNotionCommit_run data (after (getCommitDetails (cs_sha c) w)))
        as (tail & _ & [(row & Hw & _) | (Hw & _)]);
        rewrite (processCommit_attempted c st w data _ Hc Hd Hw); now eexists.
Qed.

Lemma processCommits_returns (commits : list CommitSummary) :
  forall (st : LoopState) (w : World),
    exists st', completion (processCommits commits st w) = Normal st'.
Proof.
  induction commits as [|c rest IH]; intros st w.
  - now exists st.
  - destruct (processCommit_returns c st w) as (st1 & H1).
    rewrite (processCommits_step c rest st st1 w H1). cbn. apply IH.
Qed.

Lemma allProcessed_fields (commits : list CommitSummary) :
  forall st,
    processedSHAs (cache (allProcessed commits st))
    = processedSHAs (cache st) ++ map cs_sha commits
    /\ totalProcessed (cache (allProcessed commits st))
       = totalProcessed (cache st) + Z.of_nat (length commits)
    /\ lastSync (cache (allProcessed commits st)) = lastSync (cache st)
    /\ processedCount (allProcessed commits st)
       = processedCount st + Z.of_nat (length commits)
    /\ skippedCount (allProcessed commits st) = skippedCount st.
Proof.
  induction commits as [|c rest IH]; intros st.
  - cbn. rewrite app_nil_r. repeat split; lia.
  - destruct (IH (recordProcessed (cs_sha c) st)) as (a & b & c' & d & e).
    unfold allProcessed in *. cbn [fold_left map length].
    rewrite a, b, c', d, e. cbn [recordProcessed cache processedSHAs
      totalProcessed lastSync processedCount skippedCount].
    rewrite <- app_assoc. repeat split; lia.
Qed.

(** The loop asks for no commit list and writes no file. *)
Lemma processCommit_no_lists (c : CommitSummary) (st : LoopState) (w : World) :
  listRequests (trace (processCommit c st w)) = []
  /\ fileWrites (trace (processCommit c st w)) = [].
Proof.
  destruct (commitExistsInCache (cs_sha c) (cache st)) eqn:Hc.
  - rewrite (processCommit_cached c st w Hc). split; reflexivity.
  - destruct (getCommitDetails_cases (cs_sha c) w)
      as [[Hd _] | (data & gc & Hd & _)].
    + rewrite (processCommit_detail_failed c st w Hc Hd). cbn [trace].
      rewrite (getCommitDetails_trace_failed _ _ Hd). split; reflexivity.
    + destruct (getCommitDetails_trace_fetched _ _ _ Hd)
        as (gc' & clk & Ht & Hq & _).
      destruct Hq as (q1 & q2 & q3 & q4 & q5 & q6 & q7).
      destruct (createNotionCommit_observed data
                  (after (getCommitDetails (cs_sha c) w)))
        as (_ & _ & _ & Hlr & Hfw & _).
      destruct (createNotionCommit_run data (after (getCommitDetails (cs_sha c) w)))
        as (tail & _ & [(row & Hw & _) | (Hw & _)]);
        rewrite (processCommit_attempted c st w data _ Hc Hd Hw);
        cbn [trace]; rewrite Ht; split_picks; rewrite q1, q7, Hlr, Hfw;
        split; reflexivity.
Qed.

Lemma processCommits_no_lists (commits : list CommitSummary) :
  forall (st : LoopState) (w : World),
    listRequests (trace (processCommits commits st w)) = []
    /\ fileWrites (trace (processCommits commits st w)) = [].
Proof.
  induction commits as [|c rest IH]; intros st w.
  - split; reflexivity.
  - destruct (processCommit_returns c st w) as (st1 & H1).
    rewrite (processCommits_step c rest st st1 w H1). cbn [preceded trace].
    destruct (processCommit_no_lists c st w) as (a1 & a2).
    destruct (IH st1 (after (processCommit c st w))) as (b1 & b2).
    split_picks. rewrite a1, a2, b1, b2. split; reflexivity.
Qed.

(** When nothing is reported as failed, a list of distinct commits none of
    which is in the cache is written commit by commit, each submission
    followed at once by its delay. *)
Lemma processCommits_all_succeed (commits : list CommitSummary) :
  forall (st : LoopState) (w : World),
    NoDup (map cs_sha commits) ->
    (forall c, In c commits -> ~ In (cs_sha c) (processedSHAs (cache st))) ->
    failedDetails (trace (processCommits commits st w)) = [] ->
    failedWrites (trace (processCommits commits st w)) = [] ->
    completion (processCommits commits st w) = Normal (allProcessed commits st)
    /\ exists segs,
         trace (processCommits commits st w) = flat_map writeThenDelay segs
         /\ Forall2 segmentOf commits segs.
Proof.
  induction commits as [|c rest IH]; intros st w Hnd Hnew Hfd Hfw.
  - split; [reflexivity|]. exists []. split; [reflexivity|constructor].
  - assert (Hc : commitExistsInCache (cs_sha c) (cache st) = false).
    { apply commitExistsInCache_not_In, Hnew. now left. }
    inversion Hnd as [|x xs Hnotin Hnd']; subst.
    destruct (getCommitDetails_cases (cs_sha c) w)
      as [[Hd _] | (data & gc & Hd & _)].
    { exfalso.
      pose proof (processCommit_detail_failed c st w Hc Hd) as E.
      rewrite (processCommits_step c rest st st w) in Hfd by (now rewrite E).
      rewrite E in Hfd. cbn [preceded trace] in Hfd.
      rewrite (getCommitDetails_trace_failed _ _ Hd) in Hfd.
      apply pick_app_nil in Hfd. destruct Hfd as [Hfd _]. discriminate. }
    destruct (getCommitDetails_trace_fetched _ _ _ Hd)
      as (gc' & clk & Ht & Hq & Hcfd & Hcfw & Hsha & _).
    destruct Hq as (q1 & q2 & q3 & q4 & q5 & q6 & q7).
    set (w1 := after (getCommitDetails (cs_sha c) w)) in *.
    destruct (createNotionCommit_run data w1)
      as (tail & Hct & [(row & Hw & Htail & Hrow & _) | (Hw & Hfail)]).
    2:{ exfalso.
        pose proof (processCommit_attempted c st w data false Hc Hd Hw) as E.
        fold w1 in E.
        rewrite (processCommits_step c rest st st w) in Hfw by (now rewrite E).
        rewrite E in Hfw. cbn [preceded trace] in Hfw. rewrite Hct in Hfw.
        assert (Hin : In (sha data) ([] : list string)).
        { rewrite <- Hfw.
          apply (pick_In _ (EvConsoleError (ErrorCreatingNotionEntry (sha data))));
            [|reflexivity].
          destruct Hfail as [(row & -> & _) | ->];
            rewrite !in_app_iff; cbn [In]; tauto. }
        destruct Hin. }
    pose proof (processCommit_attempted c st w data true Hc Hd Hw) as E.
    fold w1 in E.
    set (st1 := recordProcessed (cs_sha c) st) in *.
    set (w2 := setTimeout_wait 1000 (after (createNotionCommit data w1))) in *.
    assert (Hstep := processCommits_step c rest st st1 w).
    rewrite E in Hstep. cbn [completion after trace] in Hstep.
    specialize (Hstep eq_refl). fold w2 in Hstep.
    rewrite Hstep in Hfd, Hfw |- *. unfold preceded in *. cbn [trace completion] in *.
    assert (Hfd' : failedDetails (trace (processCommits rest st1 w2)) = []).
    { now apply pick_app_nil in Hfd. }
    assert (Hfw' : failedWrites (trace (processCommits rest st1 w2)) = []).
    { now apply pick_app_nil in Hfw. }
    assert (Hnew' : forall c', In c' rest ->
                               ~ In (cs_sha c') (processedSHAs (cache st1))).
    { intros c' Hin Hcached. cbn in Hcached. apply in_app_or in Hcached.
      destruct Hcached as [Hold | [Heq | []]].
      - apply (Hnew c'); [now right|assumption].
      - apply Hnotin. rewrite Heq. now apply in_map. }
    destruct (IH st1 w2 Hnd' Hnew' Hfd' Hfw') as (Hcomp & segs & Hsegs & Hall).
    split; [exact Hcomp|].
    destruct (getCommitFiles_run (sha data) w1) as (paths & ft & _ & Hft & Hftail).
    exists ((trace (getCommitDetails (cs_sha c) w)
             ++ trace (getCommitFiles (sha data) w1), row) :: segs).
    split.
    + cbn [flat_map]. rewrite <- Hsegs. unfold writeThenDelay. cbn [fst snd].
      rewrite Hct, Htail. rewrite <- !app_assoc. reflexivity.
    + constructor; [|exact Hall].
      unfold segmentOf. cbn [fst snd]. rewrite Ht, Hft, <- Hsha, Hrow.
      destruct Hftail as [-> | ->]; split_picks;
        rewrite ?q1, ?q2, ?q3, ?q4, ?q5, ?q7; repeat split.
Qed.


End Loop.

(** ** The orchestrator *)

Section Orchestrator.
Context {R : Runtime}.

(** The [try] block of [syncRecentCommits], request by request. *)
Lemma syncTry_run (days : Z) (cache0 : SyncCache) (w : World) :
  let n1 := Date_now w in
  let since := Date_toISOString (Date_minusDays (snd n1) days) in
  let p := octokit_listCommits None 10 (fst n1) in
  let q := octokit_listCommits (Some since) 50 (fst p) in
  let n2 := Date_now (fst q) in
  let since30 := Date_toISOString (Date_minusDays (snd n2) 30) in
  let f := octokit_listCommits (Some since30) 50 (fst n2) in
  let head := [EvDateNow (snd n1); EvListCommits None 10 (snd p)] in
  let head30 := head ++ [EvListCommits (Some since) 50 (Some []);
                         EvDateNow (snd n2);
                         EvListCommits (Some since30) 50 (snd f)] in
  syncTry days cache0 w
  = if Js.validTime (Date_minusDays (snd n1) days) then
    match snd p with
    | None => mkRun (fst p) head Throw
    | Some _ =>
        match snd q with
        | None => mkRun (fst q) (head ++ [EvListCommits (Some since) 50 None]) Throw
        | Some [] =>
            match snd f with
            | None => mkRun (fst f) head30 Throw
            | Some [] => mkRun (fst f) head30 (Normal NothingToSync)
            | Some (c :: l) =>
                preceded head30 (processAndSave cache0 (c :: l) (fst f))
            end
        | Some (c :: l) =>
            preceded (head ++ [EvListCommits (Some since) 50 (Some (c :: l))])
                     (processAndSave cache0 (c :: l) (fst q))
        end
    end
    else mkRun (fst n1) [EvDateNow (snd n1)] Throw.
Proof.
  intros n1 since p q n2 since30 f head head30.
  unfold syncTry, bind, newDate, toISOString, listCommits, throw, ret, preceded.
  cbn [after trace completion fst snd].
  fold n1.
  destruct (Js.validTime (Date_minusDays (snd n1) days)); [|reflexivity].
  cbn [after trace completion fst snd app].
  fold since. fold p.
  destruct (snd p) as [probe|]; [|reflexivity].
  cbn [after trace completion]. fold q.
  destruct (snd q) as [[|c l]|]; [| |reflexivity].
  - cbn [length Nat.eqb after trace completion]. fold n2. fold since30. fold f.
    destruct (snd f) as [[|c l]|]; try reflexivity.
    cbn [length Nat.ltb Nat.leb].
    now destruct (processAndSave cache0 (c :: l) (fst f)).
  - cbn [length Nat.eqb].
    now destruct (processAndSave cache0 (c :: l) (fst q)).
Qed.

Lemma syncRecentCommits_run (days : Z) (w : World) (cache0 : SyncCache) :
  completion (loadCache w) = Normal cache0 ->
  let t := syncTry days cache0 (after (loadCache w)) in
  syncRecentCommits days w
  = match completion t with
    | Normal res =>
        mkRun (after t) (trace (loadCache w) ++ trace t)
              (Normal {| loaded := cache0; result := res |})
    | Throw =>
        mkRun (after t)
              (trace (loadCache w) ++ trace t ++ [EvConsoleError ErrorDuringSync])
              (Normal {| loaded := cache0; result := SyncFailed |})
    | Exit code => mkRun (after t) (trace (loadCache w) ++ trace t) (Exit code)
    end.
Proof.
  intros H t. subst t. unfold syncRecentCommits. rewrite (bind_normal _ _ _ _ H).
  unfold bind, tryCatch, consoleError, emit, ret.
  generalize (syncTry days cache0 (after (loadCache w))).
  intros [a tr [res| |code]]; cbn; rewrite ?app_nil_r; reflexivity.
Qed.

(** The end of a run that processed [commits]: the loop, the clean-up, the
    time stamp and the save. *)
Lemma processAndSave_run (cache0 : SyncCache) (commits : list CommitSummary)
      (w : World) (st : LoopState) :
  let loop := processCommits commits
                {| cache := cache0; processedCount := 0; skippedCount := 0 |} w in
  completion loop = Normal st ->
  exists now ok,
    let final := {| processedSHAs := processedSHAs (cleanupCache (cache st));
                    lastSync := Date_toISOString now;
                    totalProcessed := totalProcessed (cache st) |} in
    completion (processAndSave cache0 commits w)
    = Normal (SyncComplete (processedCount st) (skippedCount st) final)
    /\ trace (processAndSave cache0 commits w)
       = trace loop
         ++ EvDateNow now
         :: EvWriteFileSync CACHE_FILE (JSON_stringify final) ok
         :: (if ok then [] else [EvConsoleError FailedToSaveCache]).
Proof.
  intros loop H. unfold processAndSave. rewrite (bind_normal _ _ _ _ H).
  fold loop. clearbody loop.
  cbv [bind nowISOString newDate saveCache tryCatch writeFileSync
       consoleError emit ret after trace completion].
  assert (Hclean : totalProcessed (cleanupCache (cache st))
                   = totalProcessed (cache st)).
  { unfold cleanupCache. destruct (_ <? _)%nat; reflexivity. }
  rewrite Hclean.
  match goal with
  | |- context [fs_writeFileSync ?p ?d ?w'] =>
      destruct (snd (fs_writeFileSync p d w')) eqn:E
  end.
  - eexists; exists true; split; [reflexivity|].
    cbn [app]. reflexivity.
  - eexists; exists false; split; [reflexivity|].
    cbn [app]. reflexivity.
Qed.

Lemma processAndSave_lists (cache0 : SyncCache) (commits : list CommitSummary)
      (w : World) :
  listRequests (trace (processAndSave cache0 commits w)) = []
  /\ exists res, completion (processAndSave cache0 commits w) = Normal res
                 /\ res <> NothingToSync /\ res <> SyncFailed.
Proof.
  destruct (processCommits_returns commits
              {| cache := cache0; processedCount := 0; skippedCount := 0 |} w)
    as (st & Hst).
  destruct (processAndSave_run cache0 commits w st Hst) as (now & ok & Hc & Ht).
  cbv zeta in Hc, Ht. rewrite Ht, Hc. split.
  - destruct (processCommits_no_lists commits
                {| cache := cache0; processedCount := 0; skippedCount := 0 |} w)
      as (a1 & _).
    split_picks. rewrite a1. destruct ok; reflexivity.
  - eexists. split; [reflexivity|]. split; discriminate.
Qed.

(** C4. When the request for the asked window returns no commit, the run
    asks once more, for the commits since thirty days before a fresh clock
    reading, fifty per page; and when that request returns no commit
    either, the run ends normally with nothing to sync: no detail fetch, no
    file-path fetch, no row write, no delay, no file written, and no error
    line. *)
Theorem empty_windows_end_quietly (days : Z) (w : World) :
  primaryAnswer (trace (syncRecentCommits days w)) = Some (Some []) ->
  exists probe now now30 answer,
    listRequests (trace (syncRecentCommits days w))
    = [ (None, 10, Some probe);
        (Some (Date_toISOString (Date_minusDays now days)), 50, Some []);
        (Some (Date_toISOString (Date_minusDays now30 30)), 50, answer) ]
    /\ In now30 (clockReadings (trace (syncRecentCommits days w)))
    /\ (answer = Some [] ->
        exists cache0,
          completion (syncRecentCommits days w)
          = Normal {| loaded := cache0; result := NothingToSync |}
          /\ detailFetches (trace (syncRecentCommits days w)) = []
          /\ fileFetches (trace (syncRecentCommits days w)) = []
          /\ rowWrites (trace (syncRecentCommits days w)) = []
          /\ sleeps (trace (syncRecentCommits days w)) = []
          /\ fileWrites (trace (syncRecentCommits days w)) = []
          /\ errors (trace (syncRecentCommits days w)) = []).
Proof.
  destruct (loadCache_returns w) as (cache0 & Hl & Hq).
  destruct Hq as (q1 & q2 & q3 & q4 & q5 & q6 & q7).
  rewrite (syncRecentCommits_run days w cache0 Hl). cbv zeta.
  rewrite syncTry_run. cbv zeta.
  set (w0 := after (loadCache w)).
  set (n1 := Date_now w0).
  set (p := octokit_listCommits None 10 (fst n1)).
  set (q := octokit_listCommits _ 50 (fst p)).
  set (n2 := Date_now (fst q)).
  set (f := octokit_listCommits _ 50 (fst n2)).
  unfold primaryAnswer.
  destruct (Js.validTime _).
  2:{ cbn [completion trace]. intros H. split_picks. rewrite q1 in H. cbn in H. discriminate. }
  destruct (snd p) as [probe|].
  2:{ cbn [completion trace]. intros H. split_picks. rewrite q1 in H. cbn in H. discriminate. }
  destruct (snd q) as [[|c l]|].
  3:{ cbn [completion trace]. intros H. split_picks. rewrite q1 in H. cbn in H. discriminate. }
  2:{ unfold preceded. cbn [completion trace after].
      destruct (completion (processAndSave _ _ _)); cbn [trace];
      intros H; split_picks; rewrite q1 in H; cbn in H; discriminate. }
  intros _. exists probe, (snd n1), (snd n2), (snd f).
  assert (Hclock : forall (pre post : list Event) x y z,
             In (snd n2)
                (clockReadings (pre ++ ([x; y] ++ [z; EvDateNow (snd n2)] ++ post)))).
  { intros. apply (pick_In _ (EvDateNow (snd n2))); [|reflexivity].
    rewrite !in_app_iff. cbn [In]. tauto. }
  destruct (snd f) as [[|c l]|].
  - cbn [completion trace after]. split; [|split].
    + split_picks. rewrite q1. reflexivity.
    + apply (Hclock _ [_]).
    + intros _. exists cache0. split; [reflexivity|].
      split_picks. rewrite q2, q3, q4, q5, q6, q7. repeat split.
  - destruct (processAndSave_lists cache0 (c :: l) (fst f)) as (Hno & res & Hres & _).
    unfold preceded. cbn [completion trace after]. rewrite Hres. cbn [trace].
    split; [|split].
    + split_picks. rewrite q1, Hno. reflexivity.
    + rewrite <- app_assoc. apply (Hclock _ (_ :: _)).
    + intros H; discriminate.
  - cbn [completion trace after]. split; [|split].
    + split_picks. rewrite q1. reflexivity.
    + rewrite <- app_assoc. apply (Hclock _ (_ :: _)).
    + intros H; discriminate.
Qed.



End Orchestrator.

(** ** parseInt *)

Lemma digitValue_decimal (c : ascii) (v : Z) :
  ParseInt.digitValue 10 c = Some v -> 0 <= v < 10.
Proof.
  unfold ParseInt.digitValue.
  destruct c as [[] [] [] [] [] [] [] []]; cbn; intros [= <-]; lia.
Qed.













(** ** The command line *)

Section CommandLine.
Context {R : Runtime}.

Lemma syncRecentCommits_returns (days : Z) (w : World) :
  exists report, completion (syncRecentCommits days w) = Normal report.
Proof.
  destruct (loadCache_returns w) as (cache0 & Hl & _).
  rewrite (syncRecentCommits_run days w cache0 Hl). cbv zeta.
  rewrite syncTry_run. cbv zeta.
  repeat match goal with
         | |- context [Js.validTime ?t] => destruct (Js.validTime t)
         | |- context [match snd ?x with _ => _ end] => destruct (snd x)
         | |- context [match ?l with [] => _ | _ :: _ => _ end] => destruct l
         end;
    try (cbn [completion]; now eexists).
  all: match goal with
       | |- context [processAndSave ?c ?l ?w'] =>
           destruct (processAndSave_lists c l w') as (_ & res & Hres & _)
       end;
    unfold preceded; cbn [completion]; rewrite Hres; now eexists.
Qed.

(** [main] without the clear-cache flag: the argument check, the token
    check, then the sync. *)
Lemma main_run (args : list string) (w : World) :
  Js.arrayIncludes args "--clear-cache" = false ->
  main args w
  = if invalidDays (daysOf args)
    then mkRun w [EvConsoleError InvalidDaysParameter] (Exit 1)
    else if negb (Js.truthyStr NOTION_TOKEN) || negb (Js.truthyStr GITHUB_TOKEN)
         then mkRun w [EvConsoleError MissingEnvironmentVariables] (Exit 1)
         else mkRun (after (syncRecentCommits (windowOf (daysOf args)) w))
                    (trace (syncRecentCommits (windowOf (daysOf args)) w))
                    (Normal tt).
Proof.
  intros Hflag. unfold main. rewrite Hflag.
  destruct (invalidDays (daysOf args)); [reflexivity|].
  destruct (negb (Js.truthyStr NOTION_TOKEN) || negb (Js.truthyStr GITHUB_TOKEN));
    [reflexivity|].
  destruct (syncRecentCommits_returns (windowOf (daysOf args)) w) as (rep & Hrep).
  cbv [tryCatch bind ret consoleError emit processExit].
  destruct (syncRecentCommits (windowOf (daysOf args)) w) as [w' tr done].
  cbn in Hrep. subst done. cbn. rewrite app_nil_r. reflexivity.
Qed.





(** With the clear-cache flag the process ends before the argument is
    looked at: status 0 when the file is absent or could be removed. *)
Lemma main_clear_cache (args : list string) (w : World) :
  Js.arrayIncludes args "--clear-cache" = true ->
  snd (fs_existsSync CACHE_FILE w) = false ->
  main args w
  = mkRun (fst (fs_existsSync CACHE_FILE w))
          [EvExistsSync CACHE_FILE false] (Exit 0).
Proof.
  intros Hflag Hex. unfold main. rewrite Hflag.
  cbv [tryCatch bind ret existsSync processExit].
  rewrite Hex. reflexivity.
Qed.

End CommandLine.

(** * Further properties *)

(** ** Classifiers and primitives *)

Lemma lowerChar_idem (c : ascii) : Js.lowerChar (Js.lowerChar c) = Js.lowerChar c.
Proof.
  destruct c as [[] [] [] [] [] [] [] []]; reflexivity.
Qed.

Lemma toLowerCase_idem (s : string) :
  Js.toLowerCase (Js.toLowerCase s) = Js.toLowerCase s.
Proof.
  induction s as [|c s IH]; [reflexivity|].
  cbn [Js.toLowerCase]. now rewrite lowerChar_idem, IH.
Qed.

Lemma toLowerCase_app (a b : string) :
  Js.toLowerCase (a ++ b)%string = (Js.toLowerCase a ++ Js.toLowerCase b)%string.
Proof.
  induction a as [|c a IH]; [reflexivity|].
  cbn [append Js.toLowerCase]. now rewrite IH.
Qed.

Lemma toLowerCase_join (paths : list string) :
  Js.toLowerCase (Js.join " " paths)
  = Js.join " " (map Js.toLowerCase paths).
Proof.
  unfold Js.join.
  induction paths as [|p rest IH]; [reflexivity|].
  destruct rest as [|q rest]; [reflexivity|].
  cbn [String.concat map] in *.
  rewrite !toLowerCase_app, IH. reflexivity.
Qed.

(** X1. Classification does not look at letter case: lower-casing the
    message and every path first gives the same feature area. *)
Theorem detectFeatureArea_ignores_case (message : string) (paths : list string) :
  detectFeatureArea (Js.toLowerCase message) (Some (map Js.toLowerCase paths))
  = detectFeatureArea message (Some paths).
Proof.
  unfold detectFeatureArea. cbn [Js.defaultArg].
  now rewrite <- toLowerCase_join, !toLowerCase_idem.
Qed.

Lemma prefix_app (sub post : string) : String.prefix sub (sub ++ post)%string = true.
Proof.
  induction sub as [|c sub IH]; [now destruct post|].
  cbn. destruct (ascii_dec c c); [exact IH|contradiction].
Qed.

Lemma includes_app (pre sub post : string) :
  Js.includes (pre ++ sub ++ post)%string sub = true.
Proof.
  induction pre as [|c pre IH].
  - cbn [append]. destruct (sub ++ post)%string eqn:E;
      cbn [Js.includes]; rewrite <- E, prefix_app; reflexivity.
  - cbn [append Js.includes]. rewrite IH. now destruct (String.prefix _ _).
Qed.

(** X2. A message that contains the word "chat" anywhere, in any letter
    case, is filed under "Chat Interface", whatever else it says and
    whatever the files are. *)
Theorem detectFeatureArea_chat_wins (before word rest : string)
        (paths : option (list string)) :
  Js.toLowerCase word = "chat" ->
  detectFeatureArea (before ++ word ++ rest)%string paths = "Chat Interface".
Proof.
  intros H. unfold detectFeatureArea.
  rewrite !toLowerCase_app, H, includes_app. reflexivity.
Qed.

(** X3. The impact level looks at the line counts only through the test
    "more than 200 changed lines": two pairs of counts on the same side of
    it give the same level, so the test at 50 never decides anything. *)
Theorem detectImpactLevel_threshold (message : string) (a d a' d' : Z) :
  (200 <? a + d) = (200 <? a' + d') ->
  detectImpactLevel message (Some a) (Some d)
  = detectImpactLevel message (Some a') (Some d').
Proof.
  intros H. unfold detectImpactLevel. cbn [Js.defaultArg]. rewrite H.
  repeat match goal with
         | |- context [if ?b then _ else _] => destruct b
         end; reflexivity.
Qed.

(** X4. Both classifiers only ever answer with one of their fixed labels. *)
Theorem classifier_labels (message : string) (paths : option (list string))
        (added deleted : option Z) :
  In (detectFeatureArea message paths)
     ["Chat Interface"; "BigQuery Integration"; "AI/Claude API";
      "Database/Supabase"; "UI/UX"; "Testing"; "Deployment"; "Bug Fix"]
  /\ In (detectImpactLevel message added deleted)
        ["Major Feature"; "Bug Fix"; "Refactor"; "Documentation";
         "Minor Feature"].
Proof.
  unfold detectFeatureArea, detectImpactLevel. split;
    repeat match goal with
           | |- context [if ?b then _ else _] => destruct b
           end; cbn [In]; tauto.
Qed.

(** ** Cache and [parseInt] *)

Lemma NoDup_skipn_keep {A : Type} (n : nat) (l : list A) : NoDup l -> NoDup (skipn n l).
Proof.
  intros H. rewrite <- (firstn_skipn n l) in H.
  now apply NoDup_app_remove_l in H.
Qed.

(** X5. Trimming twice is trimming once, and trimming a list without
    duplicates leaves a list without duplicates. *)
Theorem cleanupCache_idempotent (c : SyncCache) :
  cleanupCache (cleanupCache c) = cleanupCache c
  /\ (NoDup (processedSHAs c) -> NoDup (processedSHAs (cleanupCache c))).
Proof.
  split.
  - unfold cleanupCache at 1.
    assert (H : (MAX_CACHE_SIZE <? length (processedSHAs (cleanupCache c)))%nat
                = false).
    { apply Nat.ltb_ge. rewrite cleanupCache_shas, sliceLast_length. lia. }
    now rewrite H.
  - intros H. rewrite cleanupCache_shas. now apply NoDup_skipn_keep.
Qed.

(** X6. After a commit is recorded as processed it is found in the cache,
    the other identifiers are found exactly as before, and the trim at the
    end of the run does not evict it. *)
Theorem recorded_commit_is_cached (id other : string) (st : LoopState) :
  commitExistsInCache other (cache (recordProcessed id st))
  = commitExistsInCache other (cache st) || String.eqb other id
  /\ commitExistsInCache id (cache (recordProcessed id st)) = true
  /\ commitExistsInCache id (cleanupCache (cache (recordProcessed id st))) = true.
Proof.
  assert (E : forall x, commitExistsInCache x (cache (recordProcessed id st))
                        = commitExistsInCache x (cache st) || String.eqb x id).
  { intros x. unfold commitExistsInCache, Js.arrayIncludes.
    cbn [recordProcessed cache processedSHAs]. rewrite existsb_app. cbn.
    now rewrite orb_false_r. }
  split; [apply E|]. split.
  - rewrite E, String.eqb_refl. apply orb_true_r.
  - apply commitExistsInCache_In. rewrite cleanupCache_shas.
    cbn [recordProcessed cache processedSHAs]. unfold Js.sliceLast.
    rewrite skipn_app, length_app. cbn [length].
    apply in_or_app. right.
    replace (length (processedSHAs (cache st)) + 1 - MAX_CACHE_SIZE
             - length (processedSHAs (cache st)))%nat with 0%nat
      by (unfold MAX_CACHE_SIZE; lia).
    now left.
Qed.


(** ** Cache store, detail fetcher and row writer *)

Section Store.
Context {R : Runtime}.

(** X8. [saveCache] never lets an exception out: it makes one write of the
    serialized cache to the cache file, and when that write throws it
    prints one error line and returns all the same. *)
Theorem saveCache_reports_failure (c : SyncCache) (w : World) :
  saveCache c w
  = mkRun (fst (fs_writeFileSync CACHE_FILE (JSON_stringify c) w))
          (EvWriteFileSync CACHE_FILE (JSON_stringify c)
             (snd (fs_writeFileSync CACHE_FILE (JSON_stringify c) w))
           :: (if snd (fs_writeFileSync CACHE_FILE (JSON_stringify c) w)
               then [] else [EvConsoleError FailedToSaveCache]))
          (Normal tt).
Proof.
  unfold saveCache, tryCatch, writeFileSync, consoleError, emit.
  destruct (snd (fs_writeFileSync CACHE_FILE (JSON_stringify c) w)); reflexivity.
Qed.

(** X9. A cache file that parses gives back what it holds, field by field:
    a missing identifier list is the empty list, a missing count is 0, and
    a missing or empty time stamp is replaced by the current time, the
    clock being read only in that case. *)
Theorem loadCache_stored_fields (w : World) (shas : option (list string))
        (last : option string) (count : option Z) :
  cacheFileHolds w (ParsedFields shas last count) ->
  exists c,
    completion (loadCache w) = Normal c
    /\ processedSHAs c = Js.defaultArg [] shas
    /\ totalProcessed c = Js.orZero count
    /\ (if Js.truthyStr last
        then lastSync c = Js.orStr last "" /\ clockReadings (trace (loadCache w)) = []
        else exists now, clockReadings (trace (loadCache w)) = [now]
                         /\ lastSync c = Date_toISOString now)
    /\ errors (trace (loadCache w)) = []
    /\ fileWrites (trace (loadCache w)) = [].
Proof.
  intros (Hex & text & Hread & Hparse).
  unfold loadCache, tryCatch, loadCacheTry, bind, existsSync, readFileSync,
    orThrow, throw, ret, nowISOString, newDate, orElse.
  cbn. rewrite Hex. cbn. rewrite Hread. cbn. rewrite Hparse. cbn.
  destruct last as [s|]; cbn.
  - destruct (String.eqb s ""); cbn; eexists; repeat split; eexists; repeat split.
  - eexists; repeat split. eexists; repeat split.
Qed.

(** X10. A cache file that holds the JSON value [null] is treated like a
    corrupt one: reading a field of it throws, the exception is caught and
    the empty cache with the current time is returned. *)
Theorem loadCache_null_document (w : World) :
  cacheFileHolds w ParsedNull ->
  exists now,
    completion (loadCache w)
    = Normal {| processedSHAs := []; lastSync := Date_toISOString now;
                totalProcessed := 0 |}
    /\ clockReadings (trace (loadCache w)) = [now]
    /\ errors (trace (loadCache w)) = [].
Proof.
  intros (Hex & text & Hread & Hparse).
  unfold loadCache, tryCatch, loadCacheTry, bind, existsSync, readFileSync,
    orThrow, throw, ret, nowISOString, newDate, orElse, emptyCache.
  cbn. rewrite Hex. cbn. rewrite Hread. cbn. rewrite Hparse. cbn.
  eexists; repeat split.
Qed.

End Store.

Section Fetch.
Context {R : Runtime}.

(** [getCommitFiles], as one equation. *)
Lemma getCommitFiles_eq (id : string) (w : World) :
  getCommitFiles id w
  = mkRun (fst (octokit_getCommit id w))
          (EvGetCommit ByGetCommitFiles id (snd (octokit_getCommit id w))
           :: match snd (octokit_getCommit id w) with
              | Some _ => []
              | None => [EvConsoleError (ErrorGettingFiles id)]
              end)
          (Normal match snd (octokit_getCommit id w) with
                  | Some gc => Js.defaultArg [] (gh_files gc)
                  | None => []
                  end).
Proof.
  unfold getCommitFiles, tryCatch, bind, getCommit, ret, consoleError, emit.
  destruct (snd (octokit_getCommit id w)); reflexivity.
Qed.

(** X11. [getCommitFiles] never lets an exception out: it makes one request;
    when the host answers it returns the file names (none when the answer
    has no file list), and when the request throws it prints one error
    line and returns no file name. *)
Theorem getCommitFiles_paths (id : string) (w : World) :
  completion (getCommitFiles id w)
  = Normal match snd (octokit_getCommit id w) with
           | Some gc => Js.defaultArg [] (gh_files gc)
           | None => []
           end
  /\ fileFetches (trace (getCommitFiles id w)) = [id]
  /\ errors (trace (getCommitFiles id w))
     = match snd (octokit_getCommit id w) with
       | Some _ => []
       | None => [ErrorGettingFiles id]
       end
  /\ length (trace (getCommitFiles id w))
     = match snd (octokit_getCommit id w) with Some _ => 1 | None => 2 end%nat.
Proof.
  rewrite getCommitFiles_eq. cbn [completion trace].
  destruct (snd (octokit_getCommit id w)); repeat split.
Qed.

(** X12. The record built from the host's answer: the message and the link
    as given; the author's name, or "Unknown" when it is missing or empty;
    the author's date, or the current time when it is missing or empty;
    the three line counts, each 0 when missing; the number of files, 0
    when the list is missing.  And [null] exactly when the request
    throws. *)
Theorem getCommitDetails_record (id : string) (w : World) :
  match snd (octokit_getCommit id w) with
  | None => completion (getCommitDetails id w) = Normal None
  | Some gc =>
      exists data,
        completion (getCommitDetails id w) = Normal (Some data)
        /\ message data = gh_message gc
        /\ url data = gh_html_url gc
        /\ author data = Js.orStr (gh_authorName gc) "Unknown"
        /\ (if Js.truthyStr (gh_authorDate gc)
            then date data = Js.orStr (gh_authorDate gc) ""
            else exists now, clockReadings (trace (getCommitDetails id w)) = [now]
                             /\ date data = Date_toISOString now)
        /\ stats data = Some (statsOf gc)
        /\ files data = Some (Z.of_nat (length (Js.defaultArg [] (gh_files gc))))
        /\ errors (trace (getCommitDetails id w)) = []
  end.
Proof.
  unfold getCommitDetails, tryCatch, bind, getCommit, ret, consoleError, emit,
    orElse, nowISOString, newDate.
  destruct (snd (octokit_getCommit id w)) as [gc|]; [|reflexivity].
  cbn.
  destruct (gh_authorDate gc) as [s|]; cbn.
  - destruct (String.eqb s ""); cbn; eexists; repeat split;
      try (eexists; repeat split); destruct (gh_files gc); reflexivity.
  - eexists; repeat split; try (eexists; repeat split);
      destruct (gh_files gc); reflexivity.
Qed.

(** What a run of the row writer adds up to. *)
Lemma createNotionCommit_tally (data : CommitData) (w : World) :
  exists ok,
    completion (createNotionCommit data w) = Normal ok
    /\ length (acceptedWrites (trace (createNotionCommit data w)))
       = (if ok then 1 else 0)%nat
    /\ failedWrites (trace (createNotionCommit data w))
       = (if ok then [] else [sha data])
    /\ fileFetches (trace (createNotionCommit data w)) = [sha data]
    /\ (length (rowWrites (trace (createNotionCommit data w))) <= 1)%nat.
Proof.
  destruct (createNotionCommit_run data w) as (tail & Ht & Hcase).
  rewrite Ht, getCommitFiles_eq. cbn [trace].
  destruct Hcase as [(row & -> & -> & _) | (-> & [(row & -> & _) | ->])];
    [exists true | exists false | exists false];
    (split; [reflexivity|]);
    destruct (snd (octokit_getCommit (sha data) w)); repeat split;
      try reflexivity; unfold rowWrites;
      repeat rewrite ?pick_app, ?pick_cons, ?pick_nil; cbn [length app]; lia.
Qed.

(** X13. The row writer never lets an exception out, and its answer says
    whether the database accepted a row: [true] exactly when one
    submission was accepted, [false] exactly when it printed its own
    error line, the one for a row that could not be created. It asks for
    the file paths once and submits at most one row.  A file-path request
    that fails prints the line of the file-path fetcher and does not
    change the answer: the error lines of a run are that line, if the
    request failed, then the row writer's own line, if the answer is
    [false]. *)
Theorem createNotionCommit_outcome (data : CommitData) (w : World) :
  exists ok,
    completion (createNotionCommit data w) = Normal ok
    /\ length (acceptedWrites (trace (createNotionCommit data w)))
       = (if ok then 1 else 0)%nat
    /\ failedWrites (trace (createNotionCommit data w))
       = (if ok then [] else [sha data])
    /\ fileFetches (trace (createNotionCommit data w)) = [sha data]
    /\ (length (rowWrites (trace (createNotionCommit data w))) <= 1)%nat
    /\ errors (trace (createNotionCommit data w))
       = (match snd (octokit_getCommit (sha data) w) with
          | Some _ => []
          | None => [ErrorGettingFiles (sha data)]
          end
          ++ if ok then [] else [ErrorCreatingNotionEntry (sha data)])%list.
Proof.
  destruct (createNotionCommit_run data w) as (tail & Ht & Hcase).
  rewrite Ht, getCommitFiles_eq. cbn [trace].
  destruct Hcase as [(row & -> & -> & _) | (-> & [(row & -> & _) | ->])];
    [exists true | exists false | exists false];
    (split; [reflexivity|]);
    destruct (snd (octokit_getCommit (sha data) w)); repeat split;
      try reflexivity; unfold rowWrites;
      repeat rewrite ?pick_app, ?pick_cons, ?pick_nil; cbn [length app]; lia.
Qed.

(** X14. What the row writer submits: the message as title, the record's
    identifier, link and author, the day of the record's date, the fixed
    repository, status and branch labels, the two labels computed from
    the message, the fetched file paths and the line counts, and the
    counts themselves.  When the file paths cannot be fetched the row is
    still submitted, classified on the message alone; when the date is
    not a valid date nothing is submitted. *)
Theorem createNotionCommit_row (data : CommitData) (w : World) :
  let paths := match snd (octokit_getCommit (sha data) w) with
               | Some gc => Js.defaultArg [] (gh_files gc)
               | None => []
               end in
  rowWrites (trace (createNotionCommit data w))
  = match Date_isoDay (date data) with
    | None => []
    | Some day =>
        [ {| row_commitMessage := message data;
             row_githubSHA := sha data;
             row_githubURL := url data;
             row_author := author data;
             row_commitDate := day;
             row_repository := "CommunityGPT-MVP";
             row_featureArea := detectFeatureArea (message data) (Some paths);
             row_impactLevel :=
               detectImpactLevel (message data)
                                 (option_map additions (stats data))
                                 (option_map deletions (stats data));
             row_linesAdded := Js.orZero (option_map additions (stats data));
             row_linesDeleted := Js.orZero (option_map deletions (stats data));
             row_filesChanged := Js.orZero (files data);
             row_status := "Committed";
             row_branch := "main" |} ]
    end.
Proof.
  unfold createNotionCommit, tryCatch.
  rewrite (bind_normal _ _ _ _ (f_equal completion (getCommitFiles_eq _ _))).
  rewrite getCommitFiles_eq. cbn [after trace completion].
  unfold bind, pagesCreate, orThrow, throw, ret, consoleError, emit, rowOf.
  destruct (Date_isoDay (date data)) as [day|]; cbn.
  - match goal with
    | |- context [notion_pagesCreate ?row ?w'] =>
        destruct (snd (notion_pagesCreate row w'))
    end; cbn;
      destruct (snd (octokit_getCommit (sha data) w)); reflexivity.
  - destruct (snd (octokit_getCommit (sha data) w)); reflexivity.
Qed.

End Fetch.

(** ** The loop *)

Section LoopMore.
Context {R : Runtime}.

Lemma acceptedWrites_none (tr : list Event) :
  rowWrites tr = [] -> acceptedWrites tr = [].
Proof.
  unfold rowWrites, acceptedWrites.
  induction tr as [|e tr IH]; [reflexivity|].
  rewrite !pick_cons. destruct e; try exact IH. discriminate.
Qed.

Lemma NoDup_append (old : list string) :
  NoDup old -> forall new,
    NoDup new -> (forall id, In id new -> ~ In id old) -> NoDup (old ++ new).
Proof.
  induction 1 as [|x old Hx Hold IH]; intros new Hnew Hsep; [exact Hnew|].
  cbn. constructor.
  - intros Hin. apply in_app_or in Hin. destruct Hin as [Hin | Hin].
    + contradiction.
    + apply (Hsep x Hin). now left.
  - apply IH; [assumption|]. intros id Hid Hin. apply (Hsep id Hid). now right.
Qed.

(** What one iteration does to the loop state and leaves in the trace. *)
Lemma processCommit_tally (c : CommitSummary) (st : LoopState) (w : World) :
  let tr := trace (processCommit c st w) in
  (In (cs_sha c) (processedSHAs (cache st))
   /\ completion (processCommit c st w) = Normal (recordSkipped st)
   /\ tr = [])
  \/ (~ In (cs_sha c) (processedSHAs (cache st))
      /\ length (detailFetches tr) = 1%nat
      /\ ((completion (processCommit c st w) = Normal st
           /\ fileFetches tr = [] /\ acceptedWrites tr = [] /\ sleeps tr = [])
          \/ (completion (processCommit c st w) = Normal st
              /\ length (fileFetches tr) = 1%nat /\ acceptedWrites tr = []
              /\ sleeps tr = [1000])
          \/ (completion (processCommit c st w)
              = Normal (recordProcessed (cs_sha c) st)
              /\ length (fileFetches tr) = 1%nat
              /\ length (acceptedWrites tr) = 1%nat
              /\ sleeps tr = [1000]))).
Proof.
  intros tr. subst tr.
  destruct (commitExistsInCache (cs_sha c) (cache st)) eqn:Hc.
  { left. rewrite (processCommit_cached c st w Hc).
    split; [now apply commitExistsInCache_In|]. split; reflexivity. }
  right. split; [now apply commitExistsInCache_not_In|].
  destruct (getCommitDetails_cases (cs_sha c) w)
    as [[Hd _] | (data & gc & Hd & _)].
  { rewrite (processCommit_detail_failed c st w Hc Hd). cbn [trace completion].
    rewrite (getCommitDetails_trace_failed _ _ Hd).
    split; [reflexivity|]. left. repeat split. }
  destruct (getCommitDetails_trace_fetched _ _ _ Hd)
    as (gc' & clk & Ht & Hq & _).
  destruct Hq as (q1 & q2 & q3 & q4 & q5 & q6 & q7).
  pose proof (acceptedWrites_none clk q4) as q8.
  set (w1 := after (getCommitDetails (cs_sha c) w)) in *.
  destruct (createNotionCommit_tally data w1)
    as (ok & Hw & Hacc & _ & Hff & _).
  destruct (createNotionCommit_observed data w1)
    as (_ & Hdf & Hsl & _).
  rewrite (processCommit_attempted c st w data ok Hc Hd Hw).
  fold w1. cbn [trace completion]. rewrite Ht.
  unfold detailFetches, fileFetches, acceptedWrites, sleeps in *.
  repeat rewrite ?pick_app, ?pick_cons, ?pick_nil.
  rewrite q2, q3, q5, q8, Hdf, Hsl, Hff.
  split; [reflexivity|]. right.
  destruct ok; [right|left]; repeat split; cbn [app length]; try reflexivity.
  - rewrite app_nil_r. exact Hacc.
  - rewrite app_nil_r.
    now destruct (pick _ (trace (createNotionCommit data w1))).
Qed.

(** X15. A list of commits that are all in the cache already is passed over
    without a single event: no request, no write, no delay; the world is
    as before and only the skip counter moves, by the number of commits. *)
Theorem processCommits_all_cached (commits : list CommitSummary) :
  forall (st : LoopState) (w : World),
    (forall c, In c commits -> In (cs_sha c) (processedSHAs (cache st))) ->
    processCommits commits st w
    = mkRun w [] (Normal (skippedMore (length commits) st)).
Proof.
  induction commits as [|c rest IH]; intros st w Hall.
  - cbn. unfold ret, skippedMore. destruct st; cbn. rewrite Z.add_0_r. reflexivity.
  - assert (Hc : commitExistsInCache (cs_sha c) (cache st) = true).
    { apply commitExistsInCache_In, Hall. now left. }
    rewrite (processCommits_step c rest st (recordSkipped st) w)
      by (now rewrite (processCommit_cached c st w Hc)).
    rewrite (processCommit_cached c st w Hc). cbn [after trace].
    rewrite (IH (recordSkipped st) w) by (intros c' Hin; apply Hall; now right).
    unfold preceded, skippedMore. cbn. do 3 f_equal. lia.
Qed.

(** X16. Whatever the host and the database answer, the loop ends normally
    and only appends to the identifier list: what it appends are
    identifiers of the given commits that were not in the cache, each at
    most once, and exactly as many as it counts as processed; it adds the
    same number to the total, never touches the time stamp, and a list
    without duplicates stays without duplicates.  No commit is counted
    twice: the processed and the skipped together are at most the
    commits. *)
Theorem processCommits_cache_growth (commits : list CommitSummary) :
  forall (st : LoopState) (w : World),
  exists st' added,
    completion (processCommits commits st w) = Normal st'
    /\ processedSHAs (cache st') = processedSHAs (cache st) ++ added
    /\ lastSync (cache st') = lastSync (cache st)
    /\ totalProcessed (cache st')
       = totalProcessed (cache st) + Z.of_nat (length added)
    /\ processedCount st' = processedCount st + Z.of_nat (length added)
    /\ incl added (map cs_sha commits)
    /\ (forall id, In id added -> ~ In id (processedSHAs (cache st)))
    /\ NoDup added
    /\ (NoDup (processedSHAs (cache st)) -> NoDup (processedSHAs (cache st')))
    /\ skippedCount st <= skippedCount st'
    /\ Z.of_nat (length added) + (skippedCount st' - skippedCount st)
       <= Z.of_nat (length commits).
Proof.
  induction commits as [|c rest IH]; intros st w.
  - exists st, []. cbn. rewrite app_nil_r.
    repeat split; try lia; try easy; constructor.
  - pose proof NoDup_append as Hfin.
    destruct (processCommit_tally c st w) as
        [(Hin & Hc & _) | (Hnot & _ & [(Hc & _) | [(Hc & _) | (Hc & _)]])];
      rewrite (processCommits_step c rest st _ w Hc); unfold preceded;
      cbn [completion];
      match type of Hc with
      | _ = Normal ?s1 =>
          destruct (IH s1 (after (processCommit c st w)))
            as (st' & added & E & Hs & Hl & Ht & Hp & Hincl & Hnew & Hnd & _ & Hsk & Hle)
      end.
    + exists st', added. cbn in *.
      repeat split; try assumption; try lia.
      * intros id Hid. right. now apply Hincl.
      * intros Hold. rewrite Hs. now apply Hfin.
    + exists st', added. cbn in *.
      repeat split; try assumption; try lia.
      * intros id Hid. right. now apply Hincl.
      * intros Hold. rewrite Hs. now apply Hfin.
    + exists st', added. cbn in *.
      repeat split; try assumption; try lia.
      * intros id Hid. right. now apply Hincl.
      * intros Hold. rewrite Hs. now apply Hfin.
    + exists st', (cs_sha c :: added).
      cbn [recordProcessed cache processedSHAs lastSync totalProcessed
           processedCount skippedCount length map] in *.
      rewrite <- app_assoc in Hs. cbn [app] in Hs.
      assert (Hc_new : ~ In (cs_sha c) added).
      { intros Hin. apply (Hnew _ Hin). apply in_or_app. right. now left. }
      assert (Hsep : forall id, In id (cs_sha c :: added) ->
                                ~ In id (processedSHAs (cache st))).
      { intros id [<- | Hid]; [assumption|].
        intros Hold. apply (Hnew _ Hid). apply in_or_app. now left. }
      repeat split; try assumption; try lia.
      * intros id [<- | Hid]; [now left|right; now apply Hincl].
      * constructor; assumption.
      * intros Hold. rewrite Hs. apply Hfin; [assumption| |assumption].
        constructor; assumption.
Qed.

(** X17. The loop's book-keeping agrees with what it did: every commit is
    either skipped or has its details fetched exactly once; the processed
    counter moves by the number of rows the database accepted; and there
    is exactly one delay of one second per row-write attempt. *)
Theorem processCommits_accounting (commits : list CommitSummary) :
  forall (st : LoopState) (w : World),
  exists st',
    completion (processCommits commits st w) = Normal st'
    /\ Z.of_nat (length (detailFetches (trace (processCommits commits st w))))
       + (skippedCount st' - skippedCount st)
       = Z.of_nat (length commits)
    /\ processedCount st' - processedCount st
       = Z.of_nat (length (acceptedWrites (trace (processCommits commits st w))))
    /\ sleeps (trace (processCommits commits st w))
       = repeat 1000 (length (fileFetches (trace (processCommits commits st w))))
    /\ (length (acceptedWrites (trace (processCommits commits st w)))
        <= length (fileFetches (trace (processCommits commits st w))))%nat
    /\ (length (fileFetches (trace (processCommits commits st w)))
        <= length (detailFetches (trace (processCommits commits st w))))%nat.
Proof.
  induction commits as [|c rest IH]; intros st w.
  - exists st. change (trace (processCommits [] st w)) with (@nil Event).
    unfold detailFetches, acceptedWrites, sleeps, fileFetches.
    rewrite !pick_nil. cbn. repeat split; lia.
  - destruct (processCommit_tally c st w) as
        [(Hin & Hc & Ht) | (Hnot & Hd & [(Hc & Hf & Ha & Hs)
                                        | [(Hc & Hf & Ha & Hs) | (Hc & Hf & Ha & Hs)]])];
      rewrite (processCommits_step c rest st _ w Hc); unfold preceded;
      cbn [completion trace];
      match type of Hc with
      | _ = Normal ?s1 =>
          destruct (IH s1 (after (processCommit c st w)))
            as (st' & E & I1 & I2 & I3 & I4 & I5)
      end;
      exists st'; (split; [exact E|]);
      unfold detailFetches, acceptedWrites, sleeps, fileFetches in *;
      rewrite !pick_app, ?Ht, ?Hf, ?Ha, ?Hs, ?pick_nil, !length_app, ?Hd, ?Hf, ?Ha;
      cbn [app length recordSkipped recordProcessed skippedCount processedCount
           repeat Nat.add] in *;
      rewrite ?I3; repeat split; try lia.
Qed.

(** X18. A second pass over commits that were all written is free: after a
    loop over distinct, uncached commits in which nothing failed, running
    the loop again over the same commits causes no event and skips every
    one of them. *)
Theorem processCommits_second_pass (commits : list CommitSummary)
        (st st1 : LoopState) (w w' : World) :
  NoDup (map cs_sha commits) ->
  (forall c, In c commits -> ~ In (cs_sha c) (processedSHAs (cache st))) ->
  failedDetails (trace (processCommits commits st w)) = [] ->
  failedWrites (trace (processCommits commits st w)) = [] ->
  completion (processCommits commits st w) = Normal st1 ->
  processCommits commits st1 w'
  = mkRun w' [] (Normal (skippedMore (length commits) st1)).
Proof.
  intros Hnd Hnew Hfd Hfw Hst1.
  destruct (processCommits_all_succeed commits st w Hnd Hnew Hfd Hfw) as (Hc & _).
  assert (st1 = allProcessed commits st) by congruence. subst st1.
  apply processCommits_all_cached. intros c Hin.
  destruct (allProcessed_fields commits st) as (E & _). rewrite E.
  apply in_or_app. right. now apply in_map.
Qed.

End LoopMore.

(** ** The orchestrator and the command line *)

Section SyncMore.
Context {R : Runtime}.

Lemma processCommits_counters (commits : list CommitSummary) :
  forall (st : LoopState) (w : World),
  exists st',
    completion (processCommits commits st w) = Normal st'
    /\ processedCount st <= processedCount st'
    /\ skippedCount st <= skippedCount st'
    /\ (processedCount st' - processedCount st)
       + (skippedCount st' - skippedCount st) <= Z.of_nat (length commits).
Proof.
  induction commits as [|c rest IH]; intros st w.
  - exists st. cbn. repeat split; lia.
  - destruct (processCommit_tally c st w) as
        [(_ & Hc & _) | (_ & _ & [(Hc & _) | [(Hc & _) | (Hc & _)]])];
      rewrite (processCommits_step c rest st _ w Hc); unfold preceded;
      cbn [completion];
      match type of Hc with
      | _ = Normal ?s1 =>
          destruct (IH s1 (after (processCommit c st w)))
            as (st' & E & I1 & I2 & I3)
      end;
      exists st'; cbn in *; repeat split; try assumption; lia.
Qed.

(** The end of a run that processes [commits], seen from outside. *)
Lemma processAndSave_summary (cache0 : SyncCache) (commits : list CommitSummary)
      (w : World) :
  exists p s saved now,
    completion (processAndSave cache0 commits w) = Normal (SyncComplete p s saved)
    /\ fileWrites (trace (processAndSave cache0 commits w))
       = [(CACHE_FILE, JSON_stringify saved)]
    /\ listRequests (trace (processAndSave cache0 commits w)) = []
    /\ (length (processedSHAs saved) <= MAX_CACHE_SIZE)%nat
    /\ In now (clockReadings (trace (processAndSave cache0 commits w)))
    /\ lastSync saved = Date_toISOString now
    /\ 0 <= p /\ 0 <= s /\ p + s <= Z.of_nat (length commits).
Proof.
  set (init := {| cache := cache0; processedCount := 0; skippedCount := 0 |}).
  destruct (processCommits_counters commits init w) as (st & Hst & I1 & I2 & I3).
  destruct (processAndSave_run cache0 commits w st Hst) as (now & ok & Hc & Ht).
  cbv zeta in Hc, Ht. fold init in Ht.
  destruct (processCommits_no_lists commits init w) as (n1 & n2).
  eexists _, _, _, now. rewrite Hc, Ht. split; [reflexivity|].
  cbn [processedSHAs lastSync].
  split; [|split; [|split; [|split; [|split]]]].
  - unfold fileWrites in *. rewrite pick_app, n2. now destruct ok.
  - unfold listRequests in *. rewrite pick_app, n1. now destruct ok.
  - rewrite cleanupCache_shas, sliceLast_length. lia.
  - apply (pick_In _ (EvDateNow now)); [|reflexivity].
    apply in_or_app. right. now left.
  - reflexivity.
  - cbn in I1, I2, I3. lia.
Qed.

(** X19. A run never lets an exception out, and it writes the cache file
    exactly when it has processed a commit list: once, with the cache it
    reports, which holds at most 1000 identifiers and carries as time
    stamp a reading of the clock taken during the run.  A run that found
    nothing to sync or that failed writes no file. *)
Theorem sync_saves_once (days : Z) (w : World) :
  exists report,
    completion (syncRecentCommits days w) = Normal report
    /\ completion (loadCache w) = Normal (loaded report)
    /\ match result report with
       | SyncComplete p s saved =>
           fileWrites (trace (syncRecentCommits days w))
           = [(CACHE_FILE, JSON_stringify saved)]
           /\ (length (processedSHAs saved) <= MAX_CACHE_SIZE)%nat
           /\ (exists now,
                 In now (clockReadings (trace (syncRecentCommits days w)))
                 /\ lastSync saved = Date_toISOString now)
           /\ 0 <= p /\ 0 <= s
       | _ => fileWrites (trace (syncRecentCommits days w)) = []
       end.
Proof.
  destruct (loadCache_returns w) as (cache0 & Hl & Hq).
  destruct Hq as (q1 & q2 & q3 & q4 & q5 & q6 & q7).
  rewrite (syncRecentCommits_run days w cache0 Hl). cbv zeta.
  rewrite syncTry_run. cbv zeta.
  repeat match goal with
         | |- context [Js.validTime ?t] => destruct (Js.validTime t)
         | |- context [match snd ?x with _ => _ end] => destruct (snd x)
         | |- context [match ?l with [] => _ | _ :: _ => _ end] => destruct l
         end;
    try (cbn [completion trace]; eexists; split; [reflexivity|];
         split; [exact Hl|]; cbn [result];
         unfold fileWrites in *; rewrite ?pick_app, q7; reflexivity).
  all: match goal with
       | |- context [processAndSave ?c ?l ?w'] =>
           destruct (processAndSave_summary c l w')
             as (p & s & saved & now & Hc & Hw & _ & Hlen & Hnow & Hlast & Hp & Hs & _)
       end;
    unfold preceded; cbn [completion trace]; rewrite Hc; cbn [completion trace];
    eexists; (split; [reflexivity|]); (split; [exact Hl|]); cbn [result];
    (split; [unfold fileWrites in *; rewrite !pick_app, q7, Hw; reflexivity|]);
    (split; [exact Hlen|]);
    (split; [|split; assumption]);
    exists now; (split; [|exact Hlast]);
    unfold clockReadings in *; rewrite !pick_app, !in_app_iff; auto.
Qed.

(** X20. A run in which a commit-list request throws fails: it prints the
    one error line of the run and stops at once, so that no commit is
    fetched or written, there is no delay, and the cache file is left as
    it is.  The same holds, with no request made at all, when the start of
    the window, [days] days before the clock reading, is not a valid
    date. *)
Theorem sync_fails_on_list_error (days : Z) (w : World) :
  exists report,
    completion (syncRecentCommits days w) = Normal report
    /\ ((exists since per_page,
            In (since, per_page, None)
               (listRequests (trace (syncRecentCommits days w)))) ->
        result report = SyncFailed
        /\ errors (trace (syncRecentCommits days w)) = [ErrorDuringSync]
        /\ detailFetches (trace (syncRecentCommits days w)) = []
        /\ fileFetches (trace (syncRecentCommits days w)) = []
        /\ rowWrites (trace (syncRecentCommits days w)) = []
        /\ sleeps (trace (syncRecentCommits days w)) = []
        /\ fileWrites (trace (syncRecentCommits days w)) = [])
    /\ (Js.validTime
          (Date_minusDays (snd (Date_now (after (loadCache w)))) days) = false ->
        result report = SyncFailed
        /\ listRequests (trace (syncRecentCommits days w)) = []
        /\ errors (trace (syncRecentCommits days w)) = [ErrorDuringSync]
        /\ detailFetches (trace (syncRecentCommits days w)) = []
        /\ fileFetches (trace (syncRecentCommits days w)) = []
        /\ rowWrites (trace (syncRecentCommits days w)) = []
        /\ sleeps (trace (syncRecentCommits days w)) = []
        /\ fileWrites (trace (syncRecentCommits days w)) = []).
Proof.
  destruct (loadCache_returns w) as (cache0 & Hl & Hq).
  destruct Hq as (q1 & q2 & q3 & q4 & q5 & q6 & q7).
  rewrite (syncRecentCommits_run days w cache0 Hl). cbv zeta.
  rewrite syncTry_run. cbv zeta.
  repeat match goal with
         | |- context [Js.validTime ?t] => destruct (Js.validTime t)
         | |- context [match snd ?x with _ => _ end] => destruct (snd x)
         | |- context [match ?l with [] => _ | _ :: _ => _ end] => destruct l
         end.
  all: try match goal with
       | |- context [processAndSave ?c ?l ?w'] =>
           destruct (processAndSave_summary c l w')
             as (p & s & saved & now & Hc & _ & Hlr & _);
           unfold preceded; cbn [completion trace]; rewrite Hc
       end.
  all: cbn [completion trace]; eexists; (split; [reflexivity|]); cbn [result];
    unfold listRequests, errors, detailFetches, fileFetches, rowWrites, sleeps,
      fileWrites in *;
    rewrite ?pick_app, ?q1, ?q2, ?q3, ?q4, ?q5, ?q6, ?q7, ?Hlr;
    repeat rewrite ?pick_cons, ?pick_nil; cbn [app].
  all: split;
    [ intros (since & pp & Hin); cbn [In] in Hin;
      repeat destruct Hin as [Hin | Hin]; try discriminate Hin;
      try contradiction; repeat split
    | try discriminate; intros _; repeat split ].
Qed.

(** X21. When the requested window holds commits the thirty-day window is
    never asked for: the run makes two commit-list requests and goes on to
    the commits the second one returned, so that it does not end with
    nothing to sync; and when it completes, the counters it reports are
    not negative and together at most the number of commits returned. *)
Theorem sync_no_fallback_when_found (days : Z) (w : World)
        (c : CommitSummary) (l : list CommitSummary) :
  primaryAnswer (trace (syncRecentCommits days w)) = Some (Some (c :: l)) ->
  length (listRequests (trace (syncRecentCommits days w))) = 2%nat
  /\ exists report,
       completion (syncRecentCommits days w) = Normal report
       /\ result report <> NothingToSync
       /\ forall p s saved,
            result report = SyncComplete p s saved ->
            0 <= p /\ 0 <= s /\ p + s <= Z.of_nat (length (c :: l)).
Proof.
  destruct (loadCache_returns w) as (cache0 & Hl & Hq).
  destruct Hq as (q1 & q2 & q3 & q4 & q5 & q6 & q7).
  rewrite (syncRecentCommits_run days w cache0 Hl). cbv zeta.
  rewrite syncTry_run. cbv zeta. unfold primaryAnswer.
  repeat match goal with
         | |- context [Js.validTime ?t] => destruct (Js.validTime t)
         | |- context [match snd ?x with _ => _ end] => destruct (snd x)
         | |- context [match ?l with [] => _ | _ :: _ => _ end] => destruct l
         end.
  all: try match goal with
       | |- context [processAndSave ?c ?l ?w'] =>
           destruct (processAndSave_summary c l w')
             as (p & s & saved & now & Hc & _ & Hlr & _ & _ & _ & Hp & Hs & Hps);
           unfold preceded; cbn [completion trace]; rewrite Hc
       end.
  all: cbn [completion trace];
    unfold listRequests in *;
    rewrite ?pick_app, ?q1, ?Hlr; repeat rewrite ?pick_cons, ?pick_nil;
    cbn [app nth_error option_map snd]; intros H; try discriminate H.
  all: injection H as -> ->;
    (split; [reflexivity|]); eexists; (split; [reflexivity|]);
    cbn [result]; (split; [discriminate|]);
    intros p' s' saved' [= <- <- <-]; auto.
Qed.

End SyncMore.

Section MainMore.
Context {R : Runtime}.

(** X22. With the clear-cache flag among the arguments, whatever the other
    arguments are, the process only looks for the cache file and removes
    it when it is there; it ends with status 0, or with the fatal error
    line and status 1 when the removal throws; it never starts a sync. *)
Theorem main_clear_cache_only (args : list string) (w : World) :
  Js.arrayIncludes args "--clear-cache" = true ->
  main args w
  = if snd (fs_existsSync CACHE_FILE w)
    then if snd (fs_unlinkSync CACHE_FILE (fst (fs_existsSync CACHE_FILE w)))
         then mkRun (fst (fs_unlinkSync CACHE_FILE (fst (fs_existsSync CACHE_FILE w))))
                    [EvExistsSync CACHE_FILE true; EvUnlinkSync CACHE_FILE true]
                    (Exit 0)
         else mkRun (fst (fs_unlinkSync CACHE_FILE (fst (fs_existsSync CACHE_FILE w))))
                    [EvExistsSync CACHE_FILE true; EvUnlinkSync CACHE_FILE false;
                     EvConsoleError FatalErrorInMain]
                    (Exit 1)
    else mkRun (fst (fs_existsSync CACHE_FILE w))
               [EvExistsSync CACHE_FILE false] (Exit 0).
Proof.
  intros Hflag. unfold main. rewrite Hflag.
  cbv [tryCatch bind ret existsSync unlinkSync processExit consoleError emit].
  destruct (snd (fs_existsSync CACHE_FILE w)); [|reflexivity].
  destruct (snd (fs_unlinkSync CACHE_FILE (fst (fs_existsSync CACHE_FILE w))));
    reflexivity.
Qed.

(** X23. [main] never ends by an exception: it returns after a sync, or the
    process exits with status 0 or 1, and status 0 only comes from the
    clear-cache flag. *)
Theorem main_never_throws (args : list string) (w : World) :
  completion (main args w) = Normal tt
  \/ (completion (main args w) = Exit 0
      /\ Js.arrayIncludes args "--clear-cache" = true)
  \/ completion (main args w) = Exit 1.
Proof.
  destruct (Js.arrayIncludes args "--clear-cache") eqn:Hflag.
  - rewrite (main_clear_cache_only args w Hflag).
    repeat match goal with
           | |- context [if ?b then _ else _] => destruct b
           end; cbn; auto.
  - rewrite (main_run args w Hflag).
    repeat match goal with
           | |- context [if ?b then _ else _] => destruct b
           end; cbn; auto.
Qed.

(** X24. [main] asks the host for commits only when the clear-cache flag is
    absent, the window is valid and both tokens are set; with a valid
    window but a token missing or empty it prints the missing-variables
    line and exits with status 1 without any request. *)
Theorem main_requests_need_configuration (args : list string) (w : World) :
  (listRequests (trace (main args w)) <> [] ->
   Js.arrayIncludes args "--clear-cache" = false
   /\ invalidDays (daysOf args) = false
   /\ Js.truthyStr NOTION_TOKEN = true
   /\ Js.truthyStr GITHUB_TOKEN = true)
  /\ (Js.arrayIncludes args "--clear-cache" = false ->
      invalidDays (daysOf args) = false ->
      Js.truthyStr NOTION_TOKEN = false \/ Js.truthyStr GITHUB_TOKEN = false ->
      main args w
      = mkRun w [EvConsoleError MissingEnvironmentVariables] (Exit 1)).
Proof.
  split.
  - destruct (Js.arrayIncludes args "--clear-cache") eqn:Hflag.
    + rewrite (main_clear_cache_only args w Hflag).
      repeat match goal with
             | |- context [if ?b then _ else _] => destruct b
             end; cbn [trace]; intros H; exfalso; apply H; reflexivity.
    + rewrite (main_run args w Hflag).
      destruct (invalidDays (daysOf args));
        [cbn [trace]; intros H; exfalso; apply H; reflexivity|].
      destruct (Js.truthyStr NOTION_TOKEN), (Js.truthyStr GITHUB_TOKEN);
        cbn [negb orb trace]; intros H; try (exfalso; apply H; reflexivity).
      repeat split.
  - intros Hflag Hdays Htok. rewrite (main_run args w Hflag), Hdays.
    destruct Htok as [-> | ->]; cbn [negb orb]; [reflexivity|].
    now rewrite orb_true_r.
Qed.

End MainMore.

(** ** Runs in the concrete runtime *)

#[local] Existing Instance Demo.runtime.




Lemma cached_commit_is_skipped_witness :
  In (cs_sha Demo.commitA) (processedSHAs (cache Demo.seenA))
  /\ processCommit Demo.commitA Demo.seenA Demo.emptyWorld
     = mkRun Demo.emptyWorld [] (Normal (recordSkipped Demo.seenA)).
Proof.
  assert (Hin : In (cs_sha Demo.commitA) (processedSHAs (cache Demo.seenA)))
    by (left; reflexivity).
  split; [exact Hin|].
  exact (proj1 (cached_commit_is_skipped (R := Demo.runtime) Demo.commitA [Demo.commitB] Demo.seenA
                                         Demo.emptyWorld Hin)).
Defined.

Lemma empty_windows_end_quietly_witness :
  primaryAnswer (trace (syncRecentCommits 7 Demo.emptyWorld)) = Some (Some [])
  /\ exists probe now now30 answer,
       listRequests (trace (syncRecentCommits 7 Demo.emptyWorld))
       = [ (None, 10, Some probe);
           (Some (Date_toISOString (Date_minusDays now 7)), 50, Some []);
           (Some (Date_toISOString (Date_minusDays now30 30)), 50, answer) ].
Proof.
  assert (H : primaryAnswer (trace (syncRecentCommits 7 Demo.emptyWorld))
              = Some (Some [])) by reflexivity.
  split; [exact H|].
  destruct (empty_windows_end_quietly (R := Demo.runtime) 7 Demo.emptyWorld H)
    as (probe & now & now30 & answer & Hreq & _).
  now exists probe, now, now30, answer.
Defined.

Lemma failed_commit_leaves_state_witness :
  ~ In (cs_sha Demo.commitGone) (processedSHAs (cache Demo.seenNothing))
  /\ ~ In (cs_sha Demo.commitBad) (processedSHAs (cache Demo.seenNothing))
  /\ completion (getCommitDetails (cs_sha Demo.commitGone) Demo.emptyWorld)
     = Normal None
  /\ completion (createNotionCommit Demo.recordBad Demo.emptyWorld)
     = Normal false
  /\ completion (processCommit Demo.commitGone Demo.seenNothing Demo.emptyWorld)
     = Normal Demo.seenNothing
  /\ completion (processCommit Demo.commitBad Demo.seenNothing Demo.emptyWorld)
     = Normal Demo.seenNothing.
Proof.
  assert (Hnew : forall c, ~ In (cs_sha c) (processedSHAs (cache Demo.seenNothing)))
    by (intros c []).
  split; [apply Hnew|]. split; [apply Hnew|].
  split; [reflexivity|]. split; [reflexivity|].
  destruct (failed_commit_leaves_state (R := Demo.runtime) Demo.commitGone [] Demo.seenNothing
              Demo.emptyWorld (Hnew _)) as [Hdetail _].
  destruct (failed_commit_leaves_state (R := Demo.runtime) Demo.commitBad [] Demo.seenNothing
              Demo.emptyWorld (Hnew _)) as [_ Hwrite].
  destruct (Hdetail eq_refl) as (E1 & _).
  destruct (Hwrite Demo.recordBad eq_refl eq_refl) as (E2 & _).
  rewrite E1, E2. split; reflexivity.
Defined.

Lemma loadCache_missing_or_corrupt_witness :
  cacheFileMissing Demo.emptyWorld
  /\ cacheFileCorrupt Demo.corruptWorld
  /\ (exists now,
        completion (loadCache Demo.emptyWorld)
        = Normal {| processedSHAs := []; lastSync := Date_toISOString now;
                    totalProcessed := 0 |})
  /\ (exists now,
        completion (loadCache Demo.corruptWorld)
        = Normal {| processedSHAs := []; lastSync := Date_toISOString now;
                    totalProcessed := 0 |}).
Proof.
  assert (Hm : cacheFileMissing Demo.emptyWorld) by reflexivity.
  assert (Hc : cacheFileCorrupt Demo.corruptWorld).
  { split; [reflexivity|]. exists "{ not json". split; reflexivity. }
  split; [exact Hm|]. split; [exact Hc|]. split.
  - destruct (proj2 (loadCache_missing_or_corrupt (R := Demo.runtime) Demo.emptyWorld) (or_introl Hm))
      as (now & pre & H & _).
    now exists now.
  - destruct (proj2 (loadCache_missing_or_corrupt (R := Demo.runtime) Demo.corruptWorld) (or_intror Hc))
      as (now & pre & H & _).
    now exists now.
Defined.



(** C10, counterexample. The record built for a twelve-character
    identifier carries its first seven characters, and the row writer asks
    for the file paths of that short form. *)
Lemma record_full_id_counterexample :
  (exists data,
      completion (getCommitDetails "aaaaaaaa1111" Demo.emptyWorld)
      = Normal (Some data)
      /\ sha data = "aaaaaaa"
      /\ fileFetches (trace (createNotionCommit data Demo.emptyWorld))
         = ["aaaaaaa"])
  /\ ~ @recordCarriesFullId Demo.runtime.
Proof.
  split.
  - eexists. split; [reflexivity|]. split; reflexivity.
  - intros H.
    destruct (H "aaaaaaaa1111" Demo.emptyWorld _ eq_refl) as (Hsha & _).
    discriminate Hsha.
Qed.

Lemma commit_record_has_short_id_witness :
  completion (getCommitDetails (cs_sha Demo.commitBad) Demo.emptyWorld)
  = Normal (Some Demo.recordBad)
  /\ sha Demo.recordBad = Js.substring0 7 "bad12345abcd"
  /\ exists data,
       completion (getCommitDetails "aaaaaaaa1111" Demo.emptyWorld)
       = Normal (Some data)
       /\ ~ In "aaaaaaaa1111" (processedSHAs (cache Demo.seenNothing))
       /\ completion
            (createNotionCommit data
               (after (getCommitDetails "aaaaaaaa1111" Demo.emptyWorld)))
          = Normal true
       /\ completion (processCommit Demo.commitA Demo.seenNothing Demo.emptyWorld)
          = Normal (recordProcessed "aaaaaaaa1111" Demo.seenNothing)
       /\ detailFetches
            (trace (processCommit Demo.commitA Demo.seenNothing Demo.emptyWorld))
          = ["aaaaaaaa1111"]
       /\ fileFetches
            (trace (processCommit Demo.commitA Demo.seenNothing Demo.emptyWorld))
          = ["aaaaaaa"].
Proof.
  assert (H : completion (getCommitDetails (cs_sha Demo.commitBad) Demo.emptyWorld)
              = Normal (Some Demo.recordBad)) by reflexivity.
  split; [exact H|].
  split; [exact (proj1 (commit_record_has_short_id (R := Demo.runtime) _ _ _ H))|].
  eexists.
  assert (Ha : completion (getCommitDetails "aaaaaaaa1111" Demo.emptyWorld)
               = Normal (Some _)) by reflexivity.
  assert (Hnew : ~ In "aaaaaaaa1111" (processedSHAs (cache Demo.seenNothing))).
  { intros []. }
  split; [exact Ha|]. split; [exact Hnew|]. split; [reflexivity|].
  destruct (proj2 (proj2 (proj2 (commit_record_has_short_id (R := Demo.runtime)
                                   _ _ _ Ha)))
                  Demo.commitA Demo.seenNothing eq_refl Hnew eq_refl)
    as (Hdone & _ & Hdf & Hff & _).
  split; [exact Hdone|]. split; [exact Hdf|exact Hff].
Defined.

(** ** Further runs in the concrete runtime *)

Lemma detectFeatureArea_chat_wins_witness :
  Js.toLowerCase "CHAT" = "chat"
  /\ detectFeatureArea ("Fix " ++ "CHAT" ++ " bug")%string None = "Chat Interface".
Proof.
  split; [reflexivity|].
  exact (detectFeatureArea_chat_wins "Fix " "CHAT" " bug" None eq_refl).
Defined.

Lemma detectImpactLevel_threshold_witness :
  (200 <? 10 + 5) = (200 <? 60 + 0)
  /\ detectImpactLevel "update copy" (Some 10) (Some 5)
     = detectImpactLevel "update copy" (Some 60) (Some 0).
Proof.
  split; [reflexivity|].
  exact (detectImpactLevel_threshold "update copy" 10 5 60 0 eq_refl).
Defined.

Lemma cleanupCache_idempotent_witness :
  NoDup (processedSHAs (cache Demo.seenAB))
  /\ NoDup (processedSHAs (cleanupCache (cache Demo.seenAB))).
Proof.
  assert (H : NoDup (processedSHAs (cache Demo.seenAB))).
  { repeat constructor; cbn; intuition discriminate. }
  split; [exact H|].
  exact (proj2 (cleanupCache_idempotent (cache Demo.seenAB)) H).
Defined.


Lemma loadCache_stored_fields_witness :
  cacheFileHolds Demo.savedWorld
    (ParsedFields (Some ["aaaaaaaa1111"; "bbbbbbbb2222"])
                  (Some "2025-01-01T00:00:00.000Z") (Some 2))
  /\ exists c,
       completion (loadCache Demo.savedWorld) = Normal c
       /\ processedSHAs c = ["aaaaaaaa1111"; "bbbbbbbb2222"]
       /\ totalProcessed c = 2.
Proof.
  assert (H : cacheFileHolds Demo.savedWorld
                (ParsedFields (Some ["aaaaaaaa1111"; "bbbbbbbb2222"])
                              (Some "2025-01-01T00:00:00.000Z") (Some 2))).
  { split; [reflexivity|].
    exists "shas:aaaaaaaa1111,bbbbbbbb2222". split; reflexivity. }
  split; [exact H|].
  destruct (loadCache_stored_fields (R := Demo.runtime) Demo.savedWorld _ _ _ H)
    as (c & Hc & Hs & Ht & _).
  exists c. repeat split; assumption.
Defined.

Lemma loadCache_null_document_witness :
  cacheFileHolds Demo.nullWorld ParsedNull
  /\ exists now,
       completion (loadCache Demo.nullWorld)
       = Normal {| processedSHAs := []; lastSync := Date_toISOString now;
                   totalProcessed := 0 |}.
Proof.
  assert (H : cacheFileHolds Demo.nullWorld ParsedNull).
  { split; [reflexivity|]. exists "null". split; reflexivity. }
  split; [exact H|].
  destruct (loadCache_null_document (R := Demo.runtime) Demo.nullWorld H)
    as (now & Hc & _).
  now exists now.
Defined.

Lemma processCommits_all_cached_witness :
  (forall c, In c [Demo.commitA; Demo.commitB] ->
             In (cs_sha c) (processedSHAs (cache Demo.seenAB)))
  /\ processCommits [Demo.commitA; Demo.commitB] Demo.seenAB Demo.emptyWorld
     = mkRun Demo.emptyWorld [] (Normal (skippedMore 2 Demo.seenAB)).
Proof.
  assert (H : forall c, In c [Demo.commitA; Demo.commitB] ->
                        In (cs_sha c) (processedSHAs (cache Demo.seenAB))).
  { intros c [<- | [<- | []]]; cbn; auto. }
  split; [exact H|].
  exact (processCommits_all_cached (R := Demo.runtime)
           [Demo.commitA; Demo.commitB] Demo.seenAB Demo.emptyWorld H).
Defined.

Lemma processCommits_cache_growth_witness :
  NoDup (processedSHAs (cache Demo.seenA))
  /\ exists st',
       completion (processCommits [Demo.commitA; Demo.commitB; Demo.commitGone]
                                  Demo.seenA Demo.emptyWorld) = Normal st'
       /\ NoDup (processedSHAs (cache st')).
Proof.
  assert (H : NoDup (processedSHAs (cache Demo.seenA))).
  { repeat constructor; cbn; intuition. }
  split; [exact H|].
  destruct (processCommits_cache_growth (R := Demo.runtime)
              [Demo.commitA; Demo.commitB; Demo.commitGone]
              Demo.seenA Demo.emptyWorld)
    as (st' & added & Hc & _ & _ & _ & _ & _ & _ & _ & Hnd & _).
  exists st'. split; [exact Hc|exact (Hnd H)].
Defined.

Lemma processCommits_second_pass_witness :
  NoDup (map cs_sha [Demo.commitA; Demo.commitB])
  /\ failedDetails (trace (processCommits [Demo.commitA; Demo.commitB]
                                          Demo.seenNothing Demo.emptyWorld)) = []
  /\ failedWrites (trace (processCommits [Demo.commitA; Demo.commitB]
                                         Demo.seenNothing Demo.emptyWorld)) = []
  /\ processCommits [Demo.commitA; Demo.commitB]
       (allProcessed [Demo.commitA; Demo.commitB] Demo.seenNothing)
       Demo.fallbackWorld
     = mkRun Demo.fallbackWorld []
             (Normal (skippedMore 2
                        (allProcessed [Demo.commitA; Demo.commitB]
                                      Demo.seenNothing))).
Proof.
  assert (Hnd : NoDup (map cs_sha [Demo.commitA; Demo.commitB])).
  { repeat constructor; cbn; intuition discriminate. }
  split; [exact Hnd|]. split; [reflexivity|]. split; [reflexivity|].
  apply (processCommits_second_pass (R := Demo.runtime)
           [Demo.commitA; Demo.commitB] Demo.seenNothing _
           Demo.emptyWorld Demo.fallbackWorld Hnd).
  - intros c _ [].
  - reflexivity.
  - reflexivity.
  - reflexivity.
Defined.

Lemma sync_fails_on_list_error_witness :
  In (Some (Demo.isoOf (43 - 7 * 86400000)), 50, None)
     (listRequests (trace (syncRecentCommits 7 Demo.nullWorld)))
  /\ (exists report,
         completion (syncRecentCommits 7 Demo.nullWorld) = Normal report
         /\ result report = SyncFailed
         /\ errors (trace (syncRecentCommits 7 Demo.nullWorld)) = [ErrorDuringSync]
         /\ fileWrites (trace (syncRecentCommits 7 Demo.nullWorld)) = [])
  /\ Js.validTime
       (Date_minusDays
          (snd (Date_now (after (loadCache Demo.emptyWorld)))) 1000000000000)
     = false
  /\ (exists report,
         completion (syncRecentCommits 1000000000000 Demo.emptyWorld)
         = Normal report
         /\ result report = SyncFailed
         /\ listRequests (trace (syncRecentCommits 1000000000000 Demo.emptyWorld))
            = []).
Proof.
  assert (H : In (Some (Demo.isoOf (43 - 7 * 86400000)), 50, None)
                 (listRequests (trace (syncRecentCommits 7 Demo.nullWorld)))).
  { vm_compute. right. left. reflexivity. }
  assert (Hv : Js.validTime
                 (Date_minusDays
                    (snd (Date_now (after (loadCache Demo.emptyWorld))))
                    1000000000000) = false) by reflexivity.
  split; [exact H|]. split; [|split; [exact Hv|]].
  - destruct (sync_fails_on_list_error (R := Demo.runtime) 7 Demo.nullWorld)
      as (report & Hc & Hlist & _).
    assert (Hex : exists since per_page,
               In (since, per_page, None)
                  (listRequests (trace (syncRecentCommits 7 Demo.nullWorld)))).
    { exists (Some (Demo.isoOf (43 - 7 * 86400000))), 50. exact H. }
    destruct (Hlist Hex) as (Hfail & He & _ & _ & _ & _ & Hw).
    exists report. repeat split; assumption.
  - destruct (sync_fails_on_list_error (R := Demo.runtime) 1000000000000
                Demo.emptyWorld)
      as (report & Hc & _ & Hdate).
    destruct (Hdate Hv) as (Hfail & Hno & _).
    exists report. repeat split; assumption.
Defined.

Lemma sync_no_fallback_when_found_witness :
  primaryAnswer (trace (syncRecentCommits 7 Demo.primaryWorld))
  = Some (Some [Demo.commitA; Demo.commitB])
  /\ length (listRequests (trace (syncRecentCommits 7 Demo.primaryWorld))) = 2%nat.
Proof.
  assert (H : primaryAnswer (trace (syncRecentCommits 7 Demo.primaryWorld))
              = Some (Some [Demo.commitA; Demo.commitB])) by reflexivity.
  split; [exact H|].
  exact (proj1 (sync_no_fallback_when_found (R := Demo.runtime) 7
                  Demo.primaryWorld Demo.commitA [Demo.commitB] H)).
Defined.

Lemma main_clear_cache_only_witness :
  Js.arrayIncludes ["abc"; "--clear-cache"] "--clear-cache" = true
  /\ main ["abc"; "--clear-cache"] Demo.savedWorld
     = mkRun (Demo.setFile None Demo.savedWorld)
             [EvExistsSync CACHE_FILE true; EvUnlinkSync CACHE_FILE true]
             (Exit 0).
Proof.
  split; [reflexivity|].
  exact (main_clear_cache_only (R := Demo.runtime) ["abc"; "--clear-cache"]
           Demo.savedWorld eq_refl).
Defined.

Lemma main_requests_need_configuration_witness :
  listRequests (trace (main [] Demo.emptyWorld)) <> []
  /\ invalidDays (daysOf []) = false
  /\ main (R := Demo.noTokenRuntime) ["14"] Demo.emptyWorld
     = mkRun (R := Demo.noTokenRuntime) Demo.emptyWorld
             [EvConsoleError MissingEnvironmentVariables] (Exit 1).
Proof.
  assert (H : listRequests (trace (main [] Demo.emptyWorld)) <> [])
    by discriminate.
  split; [exact H|]. split.
  - exact (proj1 (proj2 (proj1 (main_requests_need_configuration
                                  (R := Demo.runtime) [] Demo.emptyWorld) H))).
  - exact (proj2 (main_requests_need_configuration
                    (R := Demo.noTokenRuntime) ["14"] Demo.emptyWorld)
                 eq_refl eq_refl (or_introl eq_refl)).
Defined.
